(** * TidyBlocks expression engine

    A shallow embedding of [src/libs/expr.js]: the expression classes, their
    structural equality ([equal]), their serialisation ([toJSON]) and the
    row evaluator ([run]), together with the part of the JavaScript runtime
    the evaluator rests on (IEEE-754 numbers, [Date] objects, the abstract
    operations [ToBoolean], [ToNumber], [ToString], and [typeof]).

    JavaScript numbers are the kernel's binary64 floats, so [1 / 0] really
    is [infinity] and [isFinite] really rejects it.  JavaScript strings are
    modelled by [string] (eight-bit code units instead of UTF-16 ones). *)

From Stdlib Require Import ZArith String Ascii List Bool Lia.
From Stdlib Require Import Floats.PrimFloat Floats.SpecFloat Floats.FloatOps.
From Stdlib Require Import Floats.FloatAxioms.
From stdpp Require Import gmap strings.

Local Open Scope string_scope.
Local Open Scope Z_scope.

(** ** Numbers *)

Module Number.

Definition number := float.
Bind Scope float_scope with number.

Definition NaN : number := nan.

(** The Number value for a mathematical integer (round to nearest, ties to
    even; exact below 2^53). *)
Definition of_Z (z : Z) : number :=
  SF2Prim (binary_normalize prec emax z 0 false).

(** [truncate x] is the integer part of a finite [x], [None] for NaN and
    the infinities. *)
Definition truncate (x : number) : option Z :=
  match Prim2SF x with
  | S754_zero _ => Some 0
  | S754_finite s m e =>
      let a := if 0 <=? e then Zpos m * 2 ^ e else Zpos m / 2 ^ (- e) in
      Some (if s then - a else a)
  | S754_infinity _ | S754_nan => None
  end.

(** [Number.isNaN]. *)
Definition isNaN (x : number) : bool := is_nan x.

(** The [%] operator on Numbers (ECMAScript Number::remainder): the
    result has the sign of the dividend and is computed exactly. *)
Definition remainder (n d : number) : number :=
  match Prim2SF n, Prim2SF d with
  | S754_nan, _ | _, S754_nan => NaN
  | S754_infinity _, _ => NaN
  | _, S754_zero _ => NaN
  | S754_zero _, _ => n
  | S754_finite _ _ _, S754_infinity _ => n
  | S754_finite sn mn en, S754_finite _ md ed =>
      let e := Z.min en ed in
      let r := Z.rem (Zpos mn * 2 ^ (en - e)) (Zpos md * 2 ^ (ed - e)) in
      if r =? 0 then (if sn then neg_zero else zero)
      else SF2Prim (binary_normalize prec emax (if sn then - r else r) e false)
  end.

(** The relational comparison of two Numbers: [None] is the
    [undefined] that ECMAScript returns when an operand is NaN. *)
Definition lessThan (x y : number) : option bool :=
  if is_nan x || is_nan y then None else Some (ltb x y).

End Number.
Export Number.

(** ** Dates

    A [Date] object holds a time value: an integral number of milliseconds
    since the epoch, or NaN ([None]), in which case the object is an
    "Invalid Date".  The calendar functions are those of ECMAScript
    (section "Time Values and Time Range"), on mathematical integers. *)

Module JSDate.

Record Date := mkDate { DateValue : option Z }.

Definition InvalidDate : Date := mkDate None.

Definition msPerDay := 86400000.
Definition msPerHour := 3600000.
Definition msPerMinute := 60000.
Definition msPerSecond := 1000.

Definition Day (t : Z) : Z := t / msPerDay.
Definition TimeWithinDay (t : Z) : Z := t mod msPerDay.

Definition DaysInYear (y : Z) : Z :=
  if negb (y mod 4 =? 0) then 365
  else if negb (y mod 100 =? 0) then 366
  else if negb (y mod 400 =? 0) then 365
  else 366.

Definition DayFromYear (y : Z) : Z :=
  365 * (y - 1970) + (y - 1969) / 4 - (y - 1901) / 100 + (y - 1601) / 400.

Definition TimeFromYear (y : Z) : Z := msPerDay * DayFromYear y.

(** The largest [y] with [TimeFromYear y <= t]: an estimate from the mean
    length of a Gregorian year, corrected by at most one year. *)
Definition YearFromTime (t : Z) : Z :=
  let d := Day t in
  let y := 1970 + d * 400 / 146097 in
  if d <? DayFromYear y then y - 1
  else if DayFromYear (y + 1) <=? d then y + 1
  else y.

Definition InLeapYear (t : Z) : Z :=
  if DaysInYear (YearFromTime t) =? 366 then 1 else 0.

Definition DayWithinYear (t : Z) : Z := Day t - DayFromYear (YearFromTime t).

Definition MonthFromTime (t : Z) : Z :=
  let d := DayWithinYear t in
  let leap := InLeapYear t in
  if d <? 31 then 0
  else if d <? 59 + leap then 1
  else if d <? 90 + leap then 2
  else if d <? 120 + leap then 3
  else if d <? 151 + leap then 4
  else if d <? 181 + leap then 5
  else if d <? 212 + leap then 6
  else if d <? 243 + leap then 7
  else if d <? 273 + leap then 8
  else if d <? 304 + leap then 9
  else if d <? 334 + leap then 10
  else 11.

Definition DateFromTime (t : Z) : Z :=
  let d := DayWithinYear t in
  let leap := InLeapYear t in
  match MonthFromTime t with
  | 0 => d + 1
  | 1 => d - 30
  | 2 => d - 58 - leap
  | 3 => d - 89 - leap
  | 4 => d - 119 - leap
  | 5 => d - 150 - leap
  | 6 => d - 180 - leap
  | 7 => d - 211 - leap
  | 8 => d - 242 - leap
  | 9 => d - 272 - leap
  | 10 => d - 303 - leap
  | _ => d - 333 - leap
  end.

Definition WeekDay (t : Z) : Z := (Day t + 4) mod 7.
Definition HourFromTime (t : Z) : Z := (t / msPerHour) mod 24.
Definition MinFromTime (t : Z) : Z := (t / msPerMinute) mod 60.
Definition SecFromTime (t : Z) : Z := (t / msPerSecond) mod 60.

(** [TimeClip]: the time value of a Number, NaN when it is not finite or
    lies more than 8.64e15 ms from the epoch. *)
Definition TimeClip (x : number) : option Z :=
  match Number.truncate x with
  | Some z => if Z.abs z <=? 8640000000000000 then Some z else None
  | None => None
  end.

(** [d.getTime()]. *)
Definition getTime (d : Date) : number :=
  match DateValue d with
  | Some t => Number.of_Z t
  | None => NaN
  end.

(** Decimal digits of a natural number, for the string form of a date. *)
Definition digit (n : Z) : string :=
  String (ascii_of_nat (48 + Z.to_nat (n mod 10))) EmptyString.

Fixpoint digits_fuel (fuel : nat) (n : Z) : string :=
  match fuel with
  | O => digit n
  | S fuel' => if n <? 10 then digit n else digits_fuel fuel' (n / 10) +:+ digit n
  end.

Definition decimal (n : Z) : string := digits_fuel (Z.to_nat (Z.log2 n)) n.

Definition twoDigits (n : Z) : string := digit (n / 10) +:+ digit n.

Definition padYear (n : Z) : string :=
  if n <? 10 then "000" +:+ decimal n
  else if n <? 100 then "00" +:+ decimal n
  else if n <? 1000 then "0" +:+ decimal n
  else decimal n.

Definition DayName (wd : Z) : string :=
  match wd with
  | 0 => "Sun" | 1 => "Mon" | 2 => "Tue" | 3 => "Wed"
  | 4 => "Thu" | 5 => "Fri" | _ => "Sat"
  end.

Definition MonthName (m : Z) : string :=
  match m with
  | 0 => "Jan" | 1 => "Feb" | 2 => "Mar" | 3 => "Apr" | 4 => "May"
  | 5 => "Jun" | 6 => "Jul" | 7 => "Aug" | 8 => "Sep" | 9 => "Oct"
  | 10 => "Nov" | _ => "Dec"
  end.

Definition DateString (t : Z) : string :=
  let yv := YearFromTime t in
  DayName (WeekDay t) +:+ " " +:+ MonthName (MonthFromTime t) +:+ " " +:+
  twoDigits (DateFromTime t) +:+ " " +:+
  (if yv <? 0 then "-" else "") +:+ padYear (Z.abs yv).

Definition TimeString (t : Z) : string :=
  twoDigits (HourFromTime t) +:+ ":" +:+ twoDigits (MinFromTime t) +:+ ":" +:+
  twoDigits (SecFromTime t) +:+ " GMT".

End JSDate.
Export JSDate.

(** ** The host

    What [expr.js] takes from outside the repository and ECMAScript leaves to
    the implementation: the random variates of [@stdlib/random/base] with
    their generator state, [Math.pow] (the [**] operator), the conversions
    between Numbers and their decimal text, the recognition of date strings,
    and the local time zone. *)

Class Host := {
  prng : Type;
  random_exponential : number -> prng -> number * prng;
  random_normal : number -> number -> prng -> number * prng;
  random_uniform : number -> number -> prng -> number * prng;
  Math_pow : number -> number -> number;
  parseFloat : string -> number;
  StringToNumber : string -> number;
  Number_toString : number -> string;
  Date_parse : string -> number;
  LocalTZA : Z -> Z;
  tzName : Z -> string
}.

(** ** Exceptions and the evaluation monad *)

Inductive exn :=
| Error (message : string)
| TypeError (message : string)
| ReferenceError (message : string).

Inductive outcome (A : Type) :=
| Return (a : A)
| Throw (e : exn).
Arguments Return {A} a.
Arguments Throw {A} e.

#[global] Instance outcome_ret : MRet outcome := fun A a => Return a.
#[global] Instance outcome_bind : MBind outcome :=
  fun A B f m => match m with Return a => f a | Throw e => Throw e end.
#[global] Instance outcome_throw : MThrow exn outcome := fun A e => Throw e.

(** Evaluation may throw and may draw from the process-wide generator; a
    draw made before a throw stays made. *)
Definition M `{Host} (A : Type) : Type := prng -> outcome A * prng.

#[global] Instance M_ret `{Host} : MRet M := fun A a s => (Return a, s).
#[global] Instance M_bind `{Host} : MBind M :=
  fun A B f m s =>
    match m s with
    | (Return a, s') => f a s'
    | (Throw e, s') => (Throw e, s')
    end.
#[global] Instance M_throw `{Host} : MThrow exn M := fun A e s => (Throw e, s).

Definition draw `{Host} (sample : prng -> number * prng) : M number :=
  fun s => (Return (fst (sample s)), snd (sample s)).

(** ** Values *)

(** Modelled from the spec: [MISSING] is [util.MISSING], defined in
    [src/libs/util.js], which is not among the sources; "a distinct sentinel
    ... representing no data here", which "is falsy".  It is taken to be
    JavaScript's [null]; [expr.js] tests [value === MISSING] before any
    coercion of it except [ToBoolean]. *)
Inductive Value :=
| MISSING
| VNumber (x : number)
| VText (s : string)
| VLogical (b : bool)
| VDatetime (d : Date).

Definition is_MISSING (v : Value) : bool :=
  match v with MISSING => true | _ => false end.

Definition instanceof_Date (v : Value) : bool :=
  match v with VDatetime _ => true | _ => false end.

Definition typeof (v : Value) : string :=
  match v with
  | MISSING => "object"
  | VNumber _ => "number"
  | VText _ => "string"
  | VLogical _ => "boolean"
  | VDatetime _ => "object"
  end.

Definition ToBoolean (v : Value) : bool :=
  match v with
  | MISSING => false
  | VNumber x => negb (is_zero x || is_nan x)
  | VText s => negb (String.eqb s "")
  | VLogical b => b
  | VDatetime _ => true
  end.

(** A row is an object used as a map from column names to values (the
    properties it inherits from [Object.prototype] are left out). *)
Abbreviation Row := (gmap string Value).

(** The property names every plain object inherits from
    [Object.prototype].  [name in row] holds of them on every row, and
    [row[name]] is then the inherited function or accessor, which is no
    value of a column: a row is modelled at the other names. *)
Definition Object_prototype : list string :=
  ["constructor"; "__defineGetter__"; "__defineSetter__"; "hasOwnProperty";
   "__lookupGetter__"; "__lookupSetter__"; "isPrototypeOf"; "propertyIsEnumerable";
   "toString"; "valueOf"; "__proto__"; "toLocaleString"].

Definition inherited (name : string) : bool :=
  existsb (String.eqb name) Object_prototype.

Section Runtime.
Context `{Host}.

Definition LocalTime (tv : Z) : Z := tv + LocalTZA tv.

Definition TimeZoneString (tv : Z) : string :=
  let offset := LocalTZA tv in
  let absOffset := Z.abs offset in
  (if 0 <=? offset then "+" else "-") +:+
  twoDigits (HourFromTime absOffset) +:+ twoDigits (MinFromTime absOffset) +:+
  tzName tv.

(** [d.toString()]. *)
Definition Date_toString (d : Date) : string :=
  match DateValue d with
  | None => "Invalid Date"
  | Some tv =>
      let t := LocalTime tv in
      DateString t +:+ " " +:+ TimeString t +:+ TimeZoneString tv
  end.

Definition localField (field : Z -> Z) (d : Date) : number :=
  match DateValue d with
  | None => NaN
  | Some tv => Number.of_Z (field (LocalTime tv))
  end.

Definition getFullYear := localField YearFromTime.
Definition getMonth := localField MonthFromTime.
Definition getDate := localField DateFromTime.
Definition getDay := localField WeekDay.
Definition getHours := localField HourFromTime.
Definition getMinutes := localField MinFromTime.
Definition getSeconds := localField SecFromTime.

Definition ToNumber (v : Value) : number :=
  match v with
  | MISSING => zero
  | VNumber x => x
  | VText s => StringToNumber s
  | VLogical b => if b then one else zero
  | VDatetime d => getTime d
  end.

Definition ToString (v : Value) : string :=
  match v with
  | MISSING => "null"
  | VNumber x => Number_toString x
  | VText s => s
  | VLogical b => if b then "true" else "false"
  | VDatetime d => Date_toString d
  end.

(** [new Date(value)]. *)
Definition new_Date (v : Value) : Date :=
  match v with
  | VDatetime d => mkDate (DateValue d)
  | VText s => mkDate (TimeClip (Date_parse s))
  | _ => mkDate (TimeClip (ToNumber v))
  end.

(** The global [isFinite]. *)
Definition isFinite (v : Value) : bool := is_finite (ToNumber v).

(** *** Operators *)

Definition js_negate (v : Value) : Value := VNumber (- ToNumber v)%float.

Definition js_add (l r : Value) : Value :=
  let prim v := match v with VDatetime d => VText (Date_toString d) | _ => v end in
  match prim l, prim r with
  | VText _, _ | _, VText _ => VText (ToString (prim l) +:+ ToString (prim r))
  | pl, pr => VNumber (ToNumber pl + ToNumber pr)%float
  end.

Definition js_subtract (l r : Value) : Value := VNumber (ToNumber l - ToNumber r)%float.
Definition js_multiply (l r : Value) : Value := VNumber (ToNumber l * ToNumber r)%float.
Definition js_divide (l r : Value) : Value := VNumber (ToNumber l / ToNumber r)%float.
Definition js_remainder (l r : Value) : Value :=
  VNumber (Number.remainder (ToNumber l) (ToNumber r)).
Definition js_power (l r : Value) : Value := VNumber (Math_pow (ToNumber l) (ToNumber r)).

(** The abstract relational comparison [l < r]; a [Date] is compared by
    its time value, two strings by code units.  A [string] lists the code
    units of a text one per character, so the texts of the model are those
    of code units below 256, which [String.ltb] orders as JavaScript does. *)
Definition IsLessThan (l r : Value) : option bool :=
  let prim v := match v with VDatetime d => VNumber (getTime d) | _ => v end in
  match prim l, prim r with
  | VText s, VText t => Some (String.ltb s t)
  | pl, pr => Number.lessThan (ToNumber pl) (ToNumber pr)
  end.

Definition js_less (l r : Value) : bool :=
  match IsLessThan l r with Some true => true | _ => false end.
Definition js_greater (l r : Value) : bool :=
  match IsLessThan r l with Some true => true | _ => false end.
Definition js_lessEqual (l r : Value) : bool :=
  match IsLessThan r l with Some false => true | _ => false end.
Definition js_greaterEqual (l r : Value) : bool :=
  match IsLessThan l r with Some false => true | _ => false end.

(** *** [util] *)

(** Modelled from the spec: [util.check] of [src/libs/util.js] (not among
    the sources); a failed requirement "aborts the current run and
    surfaces as the run's error string", the string being the message the
    caller passes. *)
Definition check {T} `{MRet T, MThrow exn T} (condition : bool) (message : string) : T unit :=
  if condition then mret tt else mthrow (Error message).

(** Modelled from the spec: [util.checkNumber] of [src/libs/util.js] (not
    among the sources); "ill-typed input (e.g., arithmetic on text) fails",
    while a missing operand is let through (the tests on missing values in
    arithmetic expect no error). *)
Definition checkNumber (value : Value) (message : string) : M unit :=
  check (is_MISSING value || String.eqb (typeof value) "number") message.

(** Modelled from the spec: [util.checkTypeEqual] of [src/libs/util.js]
    (not among the sources); comparisons "require both operands to be of
    the same runtime type (after missing-check) or fail". *)
Definition checkTypeEqual (left right : Value) (message : string) : M unit :=
  check (is_MISSING left || is_MISSING right ||
         String.eqb (typeof left) (typeof right)) message.

(** Modelled from the spec: [util.equal] of [src/libs/util.js] (not among
    the sources); "equality uses value equality (dates compare by instant,
    not object identity)"; otherwise it is [===]. *)
Definition util_equal (left right : Value) : bool :=
  match left, right with
  | VDatetime l, VDatetime r => (getTime l =? getTime r)%float
  | MISSING, MISSING => true
  | VNumber l, VNumber r => (l =? r)%float
  | VText l, VText r => String.eqb l r
  | VLogical l, VLogical r => Bool.eqb l r
  | _, _ => false
  end.

End Runtime.

(** ** Expressions

    One constructor per base class of [expr.js]; the concrete classes that
    derive from a base class are the values of a tag, grouped as the
    intermediate classes group them ([ExprNegationBase],
    [ExprTypecheckBase], [ExprConvertBase], [ExprDatetimeBase],
    [ExprArithmeticBase], [ExprCompareBase], [ExprLogicalBase]). *)

Inductive nullary := ExprColumn | ExprDatetime | ExprLogical | ExprNumber | ExprText.

Inductive negation := ExprNegate | ExprNot.
Inductive typecheck :=
  ExprIsLogical | ExprIsDatetime | ExprIsMissing | ExprIsNumber | ExprIsText.
Inductive convert := ExprToLogical | ExprToDatetime | ExprToNumber | ExprToString.
Inductive datetime :=
  ExprToYear | ExprToMonth | ExprToDay | ExprToWeekday | ExprToHours | ExprToMinutes
| ExprToSeconds.

Inductive unary :=
| Negation (c : negation)
| Typecheck (c : typecheck)
| Convert (c : convert)
| DatetimeField (c : datetime).

Inductive arithmetic :=
  ExprAdd | ExprDivide | ExprMultiply | ExprPower | ExprRemainder | ExprSubtract.
Inductive compare :=
  ExprEqual | ExprGreater | ExprGreaterEqual | ExprLess | ExprLessEqual | ExprNotEqual.
Inductive logical := ExprAnd | ExprOr.

Inductive binary :=
| Arithmetic (c : arithmetic)
| Compare (c : compare)
| Logical (c : logical).

Coercion Negation : negation >-> unary.
Coercion Typecheck : typecheck >-> unary.
Coercion Convert : convert >-> unary.
Coercion DatetimeField : datetime >-> unary.
Coercion Arithmetic : arithmetic >-> binary.
Coercion Compare : compare >-> binary.
Coercion Logical : logical >-> binary.

Inductive Expr :=
| ExprNullaryBase (c : nullary) (value : Value)
| ExprRowNum
| ExprExponential (rate : number)
| ExprNormal (mean stdDev : number)
| ExprUniform (low high : number)
| ExprUnary (c : unary) (arg : Expr)
| ExprBinary (c : binary) (left right : Expr)
| ExprIfElse (left middle right : Expr).

(** The static [KIND] of each class. *)
Definition nullary_KIND (c : nullary) : string :=
  match c with
  | ExprColumn => "column" | ExprDatetime => "datetime" | ExprLogical => "logical"
  | ExprNumber => "number" | ExprText => "text"
  end.

Definition datetime_KIND (c : datetime) : string :=
  match c with
  | ExprToYear => "toYear" | ExprToMonth => "toMonth" | ExprToDay => "toDay"
  | ExprToWeekday => "toWeekday" | ExprToHours => "toHours"
  | ExprToMinutes => "toMinutes" | ExprToSeconds => "toSeconds"
  end.

Definition unary_KIND (c : unary) : string :=
  match c with
  | Negation ExprNegate => "negate"
  | Negation ExprNot => "not"
  | Typecheck ExprIsLogical => "isLogical"
  | Typecheck ExprIsDatetime => "isDatetime"
  | Typecheck ExprIsMissing => "isMissing"
  | Typecheck ExprIsNumber => "isNumber"
  | Typecheck ExprIsText => "isText"
  | Convert ExprToLogical => "toLogical"
  | Convert ExprToDatetime => "toDatetime"
  | Convert ExprToNumber => "toNumber"
  | Convert ExprToString => "toString"
  | DatetimeField c => datetime_KIND c
  end.

Definition arithmetic_KIND (c : arithmetic) : string :=
  match c with
  | ExprAdd => "add" | ExprDivide => "divide" | ExprMultiply => "multiply"
  | ExprPower => "power" | ExprRemainder => "remainder" | ExprSubtract => "subtract"
  end.

Definition compare_KIND (c : compare) : string :=
  match c with
  | ExprEqual => "equal" | ExprGreater => "greater"
  | ExprGreaterEqual => "greaterEqual" | ExprLess => "less"
  | ExprLessEqual => "lessEqual" | ExprNotEqual => "notEqual"
  end.

Definition binary_KIND (c : binary) : string :=
  match c with
  | Arithmetic c => arithmetic_KIND c
  | Compare c => compare_KIND c
  | Logical ExprAnd => "and"
  | Logical ExprOr => "or"
  end.

(** [this.kind], as the constructors set it. *)
Definition kind (this : Expr) : string :=
  match this with
  | ExprNullaryBase c _ => nullary_KIND c
  | ExprRowNum => "rownum"
  | ExprExponential _ => "exponential"
  | ExprNormal _ _ => "normal"
  | ExprUniform _ _ => "uniform"
  | ExprUnary c _ => unary_KIND c
  | ExprBinary c _ _ => binary_KIND c
  | ExprIfElse _ _ _ => "ifElse"
  end.

(** [Expr.KIND]. *)
Definition Expr_KIND : string := "@expr".

(** The arrays [toJSON] builds: nested arrays over scalars. *)
#[warnings="-register-all"]
Inductive json :=
| JValue (v : Value)
| JArray (elements : list json).

(** Reading a property an object may lack: [None] is [undefined]. *)
Definition get_low (e : Expr) : option number :=
  match e with ExprUniform low _ => Some low | _ => None end.
Definition get_high (e : Expr) : option number :=
  match e with ExprUniform _ high => Some high | _ => None end.

(** [x === p] for a Number [x] and a property [p]. *)
Definition strict_equal (x : number) (p : option number) : bool :=
  match p with Some y => (x =? y)%float | None => false end.

Definition instanceof_ExprNormal (e : Expr) : bool :=
  match e with ExprNormal _ _ => true | _ => false end.

(** ** The constructors' requirements *)

Definition new_ExprColumn (name : Value) : outcome Expr :=
  check (ToBoolean name && String.eqb (typeof name) "string")
        "Column name must be string";;
  mret (ExprNullaryBase ExprColumn name).

Definition new_ExprDatetime (value : Value) : outcome Expr :=
  check (is_MISSING value || instanceof_Date value)
        "Datetime value must be missing or date";;
  mret (ExprNullaryBase ExprDatetime value).

Definition new_ExprLogical (value : Value) : outcome Expr :=
  check (is_MISSING value || String.eqb (typeof value) "boolean")
        "Logical value must be missing or true/false";;
  mret (ExprNullaryBase ExprLogical value).

Definition new_ExprNumber (value : Value) : outcome Expr :=
  check (is_MISSING value || String.eqb (typeof value) "number")
        "Numeric value must be missing or number";;
  mret (ExprNullaryBase ExprNumber value).

Definition new_ExprText (value : Value) : outcome Expr :=
  check (is_MISSING value || String.eqb (typeof value) "string")
        "String value must be missing or string";;
  mret (ExprNullaryBase ExprText value).

Section Engine.
Context `{Host}.

(** ** [equal] *)

Fixpoint equal (this other : Expr) : bool :=
  match this with
  | ExprNullaryBase c value =>
      match other with
      | ExprNullaryBase c' value' =>
          String.eqb (kind this) (kind other) && util_equal value value'
      | _ => false
      end
  | ExprRowNum =>
      match other with ExprRowNum => true | _ => false end
  | ExprExponential _ =>
      match other with ExprExponential _ => true | _ => false end
  | ExprNormal mean stdDev =>
      match other with
      | ExprNormal mean' stdDev' => (mean =? mean')%float && (stdDev =? stdDev')%float
      | _ => false
      end
  | ExprUniform low high =>
      instanceof_ExprNormal other &&
      strict_equal low (get_low other) &&
      strict_equal high (get_high other)
  | ExprUnary c arg =>
      match other with
      | ExprUnary c' arg' =>
          String.eqb (kind this) (kind other) && equal arg arg'
      | _ => false
      end
  | ExprBinary c l r =>
      match other with
      | ExprBinary c' l' r' =>
          String.eqb (kind this) (kind other) &&
          equal l l' && equal r r'
      | _ => false
      end
  | ExprIfElse l m r =>
      match other with
      | ExprIfElse l' m' r' =>
          String.eqb (kind this) (kind other) &&
          equal l l' && equal m m' && equal r r'
      | _ => false
      end
  end.

(** ** [toJSON]

    [ExprRowNum.toJSON] reads the identifier [ExprKIND], which nothing
    declares: evaluating it throws a [ReferenceError]. *)

Definition tag : json := JValue (VText Expr_KIND).

Fixpoint toJSON (this : Expr) : outcome json :=
  match this with
  | ExprNullaryBase _ value =>
      mret (JArray [tag; JValue (VText (kind this)); JValue value])
  | ExprRowNum =>
      mthrow (ReferenceError "ExprKIND is not defined")
  | ExprExponential rate =>
      mret (JArray [tag; JValue (VText (kind this)); JValue (VNumber rate)])
  | ExprNormal mean stdDev =>
      mret (JArray [tag; JValue (VText (kind this));
                    JValue (VNumber mean); JValue (VNumber stdDev)])
  | ExprUniform low high =>
      mret (JArray [tag; JValue (VText (kind this));
                    JValue (VNumber low); JValue (VNumber high)])
  | ExprUnary _ arg =>
      a ← toJSON arg;
      mret (JArray [tag; JValue (VText (kind this)); a])
  | ExprBinary _ l r =>
      left ← toJSON l;
      right ← toJSON r;
      mret (JArray [tag; JValue (VText (kind this)); left; right])
  | ExprIfElse l m r =>
      left ← toJSON l;
      middle ← toJSON m;
      right ← toJSON r;
      mret (JArray [tag; JValue (VText (kind this)); left; middle; right])
  end.

(** ** [run] *)

(** [ExprBase.safeValue]. *)
Definition safeValue (value : Value) : Value :=
  if isFinite value then value else MISSING.

(** [ExprTypecheckBase.typeCheck]; [arg] is [this.arg.run(row, i)]. *)
Definition typeCheck (arg : M Value) (typeName : string) : M Value :=
  value ← arg;
  mret (if is_MISSING value then MISSING
        else VLogical (String.eqb (typeof value) typeName)).

(** Calling a [Date] method on a value; on anything but a [Date] the
    property is [undefined] and the call throws. *)
Definition call (method : Date -> number) (name : string) (d : Value) : M number :=
  match d with
  | VDatetime d => mret (method d)
  | _ => mthrow (TypeError ("d." +:+ name +:+ " is not a function"))
  end.

(** [ExprDatetimeBase.dateValue]. *)
Definition dateValue (this_kind : string) (arg : M Value)
    (func : Value -> M Value) : M Value :=
  value ← arg;
  if is_MISSING value then mret MISSING
  else
    check (instanceof_Date value) ("Require date for " +:+ this_kind);;
    func value.

(** [ExprArithmeticBase.arithmetic]. *)
Definition run_arithmetic (this_kind : string) (left right : M Value)
    (func : Value -> Value -> Value) : M Value :=
  left ← left;
  checkNumber left ("Require number for " +:+ this_kind);;
  right ← right;
  checkNumber right ("Require number for " +:+ this_kind);;
  mret (if is_MISSING left || is_MISSING right then MISSING
        else safeValue (func left right)).

(** [ExprCompareBase.comparison]. *)
Definition comparison (this_kind : string) (left right : M Value)
    (func : Value -> Value -> bool) : M Value :=
  left ← left;
  right ← right;
  checkTypeEqual left right ("Require equal types for " +:+ this_kind);;
  mret (if is_MISSING left || is_MISSING right then MISSING
        else VLogical (func left right)).

(** The [run] methods of the classes deriving from [ExprUnary]. *)
Definition run_unary (c : unary) (arg : M Value) : M Value :=
  match c with
  | Negation ExprNegate =>
      value ← arg;
      checkNumber value "Require number for undefined";;
      mret (if is_MISSING value then MISSING else safeValue (js_negate value))
  | Negation ExprNot =>
      value ← arg;
      mret (if is_MISSING value then MISSING
            else VLogical (if negb (ToBoolean value) then true else false))
  | Typecheck ExprIsLogical => typeCheck arg "boolean"
  | Typecheck ExprIsDatetime =>
      value ← arg;
      mret (if is_MISSING value then MISSING else VLogical (instanceof_Date value))
  | Typecheck ExprIsMissing =>
      value ← arg;
      mret (VLogical (is_MISSING value))
  | Typecheck ExprIsNumber => typeCheck arg "number"
  | Typecheck ExprIsText => typeCheck arg "string"
  | Convert ExprToLogical =>
      value ← arg;
      mret (if is_MISSING value then MISSING
            else VLogical (if ToBoolean value then true else false))
  | Convert ExprToDatetime =>
      value ← arg;
      if is_MISSING value then mret MISSING
      else
        let result := new_Date value in
        mret (if String.eqb (typeof (VDatetime result)) "object" &&
                 String.eqb (Date_toString result) "Invalid Date"
              then MISSING else VDatetime result)
  | Convert ExprToNumber =>
      value ← arg;
      mret (match value with
            | VLogical b => VNumber (if b then one else zero)
            | VDatetime d => VNumber (getTime d)
            | VText s =>
                let x := parseFloat s in
                if Number.isNaN x then MISSING else VNumber x
            | _ => value
            end)
  | Convert ExprToString =>
      value ← arg;
      if is_MISSING value then mret MISSING
      else mret (if negb (String.eqb (typeof value) "string")
                 then VText (ToString value) else value)
  | DatetimeField c =>
      dateValue (datetime_KIND c) arg
        match c with
        | ExprToYear => fun d => x ← call getFullYear "getFullYear" d; mret (VNumber x)
        | ExprToMonth =>
            fun d => x ← call getMonth "getMonth" d; mret (VNumber (x + one)%float)
        | ExprToDay => fun d => x ← call getDate "getDate" d; mret (VNumber x)
        | ExprToWeekday => fun d => x ← call getDay "getDay" d; mret (VNumber x)
        | ExprToHours => fun d => x ← call getHours "getHours" d; mret (VNumber x)
        | ExprToMinutes => fun d => x ← call getMinutes "getMinutes" d; mret (VNumber x)
        | ExprToSeconds => fun d => x ← call getSeconds "getSeconds" d; mret (VNumber x)
        end
  end.

(** The function each arithmetic class hands to [arithmetic]. *)
Definition arithmetic_func (c : arithmetic) : Value -> Value -> Value :=
  match c with
  | ExprAdd => js_add
  | ExprDivide => js_divide
  | ExprMultiply => js_multiply
  | ExprPower => js_power
  | ExprRemainder => js_remainder
  | ExprSubtract => js_subtract
  end.

(** The function each comparison class hands to [comparison]. *)
Definition compare_func (c : compare) : Value -> Value -> bool :=
  match c with
  | ExprEqual => util_equal
  | ExprGreater => js_greater
  | ExprGreaterEqual => js_greaterEqual
  | ExprLess => js_less
  | ExprLessEqual => js_lessEqual
  | ExprNotEqual => fun left right => negb (util_equal left right)
  end.

(** The [run] methods of the classes deriving from [ExprBinary]. *)
Definition run_binary (c : binary) (left right : M Value) : M Value :=
  match c with
  | Arithmetic c => run_arithmetic (arithmetic_KIND c) left right (arithmetic_func c)
  | Compare c => comparison (compare_KIND c) left right (compare_func c)
  | Logical ExprAnd =>
      left ← left;
      if negb (ToBoolean left) then mret left else right
  | Logical ExprOr =>
      left ← left;
      if ToBoolean left then mret left else right
  end.

(** In [ExprColumn.run] the row is read after the requirement that it has
    the column, so the default of the lookup is never used.  The
    requirement [this.value in row] is that of the row's own properties:
    at a name that is [inherited] and not the row's own, the code finds the
    member of [Object.prototype] and returns it. *)
Fixpoint run (this : Expr) (row : Row) (i : number) : M Value :=
  match this with
  | ExprNullaryBase ExprColumn value =>
      check true "Row must be object";;
      check (bool_decide (is_Some (row !! ToString value))) "undefined not in row";;
      mret (default MISSING (row !! ToString value))
  | ExprNullaryBase _ value => mret value
  | ExprRowNum => mret (VNumber i)
  | ExprExponential rate => x ← draw (random_exponential rate); mret (VNumber x)
  | ExprNormal mean stdDev => x ← draw (random_normal mean stdDev); mret (VNumber x)
  | ExprUniform low high => x ← draw (random_uniform low high); mret (VNumber x)
  | ExprUnary c arg => run_unary c (run arg row i)
  | ExprBinary c l r => run_binary c (run l row i) (run r row i)
  | ExprIfElse l m r =>
      cond ← run l row i;
      if is_MISSING cond then mret MISSING
      else if ToBoolean cond then run m row i else run r row i
  end.

End Engine.

(** ** A reference host

    A deterministic host on which the evaluator runs by computation: UTC as
    the local time zone, a generator that replays a recorded sequence of
    variates, decimal literals read with correct rounding, and ISO dates
    ([YYYY-MM-DD], optionally followed by [THH:mm:ssZ]).  Its limits: [**]
    is repeated multiplication for integral exponents and NaN for
    fractional ones, [StringToNumber] knows no hexadecimal literals, and no
    other shape of date string is recognised. *)

Module Reference.

Definition is_whitespace (c : ascii) : bool :=
  let n := nat_of_ascii c in
  (n =? 32)%nat || ((9 <=? n)%nat && (n <=? 13)%nat).

Fixpoint trim_left (s : string) : string :=
  match s with
  | String c s' => if is_whitespace c then trim_left s' else s
  | EmptyString => s
  end.

Definition digit_of (c : ascii) : option Z :=
  let n := nat_of_ascii c in
  if (48 <=? n)%nat && (n <=? 57)%nat then Some (Z.of_nat n - 48) else None.

(** [span_digits s acc n]: the longest run of decimal digits that starts
    [s], folded into [acc]; [n] counts the digits read. *)
Fixpoint span_digits (s : string) (acc : Z) (n : Z) : Z * Z * string :=
  match s with
  | String c s' =>
      match digit_of c with
      | Some d => span_digits s' (10 * acc + d) (n + 1)
      | None => (acc, n, s)
      end
  | EmptyString => (acc, n, s)
  end.

(** The Number nearest to [m * 10 ^ e], for [0 <= m]. *)
Definition decimal_to_number (m e : Z) : number :=
  if 0 <=? e then Number.of_Z (m * 10 ^ e)
  else
    let p := 1140 in
    let q := m * 2 ^ p / 10 ^ (- e) in
    let sticky := if m * 2 ^ p mod 10 ^ (- e) =? 0 then 0 else 1 in
    SF2Prim (binary_normalize prec emax (2 * q + sticky) (- p - 1) false).

(** An optional exponent part: [e], a sign, digits. *)
Definition exponent_part (s : string) : Z * string :=
  match s with
  | String c s1 =>
      if Ascii.eqb c "e" || Ascii.eqb c "E" then
        let '(sign, s2) :=
          match s1 with
          | String c' s2 =>
              if Ascii.eqb c' "-" then (-1, s2)
              else if Ascii.eqb c' "+" then (1, s2) else (1, s1)
          | EmptyString => (1, s1)
          end in
        let '(x, n, rest) := span_digits s2 0 0 in
        if n =? 0 then (0, s) else (sign * x, rest)
      else (0, s)
  | EmptyString => (0, s)
  end.

(** The longest prefix of [s] that is an unsigned decimal literal: its
    value and what follows it. *)
Definition unsigned_literal (s : string) : option (number * string) :=
  if String.prefix "Infinity" s then Some (infinity, String.substring 8 (String.length s - 8) s)
  else
    let '(ip, n1, s1) := span_digits s 0 0 in
    let '(m, n2, s2) :=
      match s1 with
      | String c s1' =>
          if Ascii.eqb c "." then span_digits s1' ip 0 else (ip, 0, s1)
      | EmptyString => (ip, 0, s1)
      end in
    if (n1 + n2 =? 0) then None
    else
      let '(x, rest) := exponent_part s2 in
      Some (decimal_to_number m (x - n2), rest).

Definition signed_literal (s : string) : option (number * string) :=
  match s with
  | String c s' =>
      if Ascii.eqb c "-" then
        match unsigned_literal s' with
        | Some (x, rest) => Some ((- x)%float, rest)
        | None => None
        end
      else if Ascii.eqb c "+" then unsigned_literal s'
      else unsigned_literal s
  | EmptyString => None
  end.

Definition parse_float (s : string) : number :=
  match signed_literal (trim_left s) with
  | Some (x, _) => x
  | None => NaN
  end.

Definition string_to_number (s : string) : number :=
  let s := trim_left s in
  if String.eqb s "" then zero
  else
    match signed_literal s with
    | Some (x, rest) => if String.eqb (trim_left rest) "" then x else NaN
    | None => NaN
    end.

(** [Math.pow] where ECMAScript fixes it (NaN, zero and infinite
    exponents), and by repeated multiplication for the other integral
    exponents. *)
Definition pow (base exponent : number) : number :=
  if is_nan exponent then NaN
  else if is_zero exponent then one
  else if is_infinity exponent then
    if is_nan base then NaN
    else if (abs base =? one)%float then NaN
    else if Bool.eqb (one <? abs base)%float (zero <? exponent)%float then infinity
    else zero
  else
    match Number.truncate exponent with
    | Some n =>
        if (Number.of_Z n =? exponent)%float then
          let p := Z.iter (Z.abs n) (fun acc => acc * base)%float one in
          if n <? 0 then (one / p)%float else p
        else NaN
    | None => NaN
    end.

(** A positive finite Number as an exact fraction. *)
Definition ratio (x : number) : Z * Z :=
  match Prim2SF x with
  | S754_finite _ m e => if 0 <=? e then (Zpos m * 2 ^ e, 1) else (Zpos m, 2 ^ (- e))
  | _ => (0, 1)
  end.

(** [10 ^ n <= a / b]. *)
Definition pow10_le (n a b : Z) : bool :=
  if 0 <=? n then 10 ^ n * b <=? a else b <=? a * 10 ^ (- n).

Fixpoint magnitude_from (fuel : nat) (n a b : Z) : Z :=
  match fuel with
  | O => n
  | S fuel' => if pow10_le n a b then magnitude_from fuel' (n + 1) a b else n
  end.

(** The [n] with [10 ^ (n - 1) <= a / b < 10 ^ n]. *)
Definition magnitude (a b : Z) : Z :=
  magnitude_from 8 ((Z.log2 a - Z.log2 b) * 30103 / 100000 - 2) a b.

(** The [k]-digit integer [s] and the [n] for which [s * 10 ^ (n - k)]
    reads back as [x], when there is one; the nearest to [x] otherwise. *)
Definition digits_of_length (x : number) (a b n0 k : Z) : option (Z * Z) :=
  let e := k - n0 in
  let '(num, den) := if 0 <=? e then (a * 10 ^ e, b) else (a, b * 10 ^ (- e)) in
  let lo := num / den in
  let hi := lo + 1 in
  let reads_back s := (decimal_to_number s (n0 - k) =? x)%float in
  let normal s := if s =? 10 ^ k then (10 ^ (k - 1), n0 + 1) else (s, n0) in
  let lo_nearer :=
    (2 * num <? (2 * lo + 1) * den) || ((2 * num =? (2 * lo + 1) * den) && Z.even lo) in
  match reads_back lo, reads_back hi with
  | true, true => Some (normal (if lo_nearer then lo else hi))
  | true, false => Some (normal lo)
  | false, true => Some (normal hi)
  | false, false => None
  end.

Fixpoint shortest (fuel : nat) (x : number) (a b n0 k : Z) : Z * Z * Z :=
  match digits_of_length x a b n0 k with
  | Some (s, n) => (s, n, k)
  | None =>
      match fuel with
      | O => (0, 0, 1)
      | S fuel' => shortest fuel' x a b n0 (k + 1)
      end
  end.

Fixpoint zeros (n : nat) : string :=
  match n with O => "" | S n' => "0" +:+ zeros n' end.

(** Number::toString, radix 10. *)
Definition number_to_string (x : number) : string :=
  if is_nan x then "NaN"
  else if is_zero x then "0"
  else if is_infinity x then (if get_sign x then "-Infinity" else "Infinity")
  else
    let '(a, b) := ratio x in
    let '(s, n, k) := shortest 17 (abs x) a b (magnitude a b) 1 in
    let ds := decimal s in
    (if get_sign x then "-" else "") +:+
    (if (k <=? n) && (n <=? 21) then ds +:+ zeros (Z.to_nat (n - k))
     else if (0 <? n) && (n <=? 21) then
       String.substring 0 (Z.to_nat n) ds +:+ "." +:+
       String.substring (Z.to_nat n) (Z.to_nat (k - n)) ds
     else if (-6 <? n) && (n <=? 0) then "0." +:+ zeros (Z.to_nat (- n)) +:+ ds
     else
       let e := n - 1 in
       let exponent := "e" +:+ (if e <? 0 then "-" else "+") +:+ decimal (Z.abs e) in
       if k =? 1 then ds +:+ exponent
       else String.substring 0 1 ds +:+ "." +:+
            String.substring 1 (Z.to_nat (k - 1)) ds +:+ exponent).

(** [MakeDay] and [MakeTime] for fields already in range. *)
Definition MakeDate (y m d hh mm ss : Z) : Z :=
  let leap := if DaysInYear y =? 366 then 1 else 0 in
  let before :=
    match m with
    | 1 => 0 | 2 => 31 | 3 => 59 + leap | 4 => 90 + leap | 5 => 120 + leap
    | 6 => 151 + leap | 7 => 181 + leap | 8 => 212 + leap | 9 => 243 + leap
    | 10 => 273 + leap | 11 => 304 + leap | _ => 334 + leap
    end in
  (DayFromYear y + before + d - 1) * msPerDay
  + hh * msPerHour + mm * msPerMinute + ss * msPerSecond.

Definition DaysInMonth (y m : Z) : Z :=
  match m with
  | 2 => if DaysInYear y =? 366 then 29 else 28
  | 4 | 6 | 9 | 11 => 30
  | _ => 31
  end.

(** [n] digits, then the rest. *)
Definition fixed_digits (n : nat) (s : string) : option (Z * string) :=
  let '(x, k, _) := span_digits (String.substring 0 n s) 0 0 in
  if (k =? Z.of_nat n) then Some (x, String.substring n (String.length s - n) s)
  else None.

Definition expect (c : ascii) (s : string) : option string :=
  match s with
  | String c' s' => if Ascii.eqb c c' then Some s' else None
  | EmptyString => None
  end.

Definition date_parse (s : string) : number :=
  let parsed : option Z :=
    '(y, s) ← fixed_digits 4 s;
    s ← expect "-" s;
    '(m, s) ← fixed_digits 2 s;
    s ← expect "-" s;
    '(d, s) ← fixed_digits 2 s;
    if negb ((1 <=? m) && (m <=? 12) && (1 <=? d) && (d <=? DaysInMonth y m)) then None
    else if String.eqb s "" then Some (MakeDate y m d 0 0 0)
    else
      s ← expect "T" s;
      '(hh, s) ← fixed_digits 2 s;
      s ← expect ":" s;
      '(mm, s) ← fixed_digits 2 s;
      s ← expect ":" s;
      '(ss, s) ← fixed_digits 2 s;
      if (((hh <=? 23) && (mm <=? 59) && (ss <=? 59)) ||
          ((hh =? 24) && (mm =? 0) && (ss =? 0))) && String.eqb s "Z"
      then Some (MakeDate y m d hh mm ss) else None in
  match parsed with
  | Some t => Number.of_Z t
  | None => NaN
  end.

(** The generator state is the sequence of variates still to be handed
    out; an exhausted sequence yields NaN. *)
Definition replay (s : list number) : number * list number :=
  match s with
  | x :: s' => (x, s')
  | [] => (NaN, [])
  end.

#[export] Instance host : Host := {|
  prng := list number;
  random_exponential := fun _ => replay;
  random_normal := fun _ _ => replay;
  random_uniform := fun _ _ => replay;
  Math_pow := pow;
  parseFloat := parse_float;
  StringToNumber := string_to_number;
  Number_toString := number_to_string;
  Date_parse := date_parse;
  LocalTZA := fun _ => 0;
  tzName := fun _ => " (Coordinated Universal Time)"
|}.

(** The generator that will hand out [variates]. *)
Definition recorded (variates : list number) : prng := variates.

End Reference.

(** ** The export table and the option lists

    [Expr], the "lookup table of everything exported from this file", and
    the [OPTIONS] arrays attached to the base classes. *)

(** The classes of [expr.js] that [Expr] exports. *)
Inductive class :=
| ClassBase
| ClassNullary (c : nullary)
| ClassRowNum
| ClassExponential
| ClassNormal
| ClassUniform
| ClassUnary (c : unary)
| ClassBinary (c : binary)
| ClassIfElse.

(** The class a node is an instance of. *)
Definition class_of (e : Expr) : class :=
  match e with
  | ExprNullaryBase c _ => ClassNullary c
  | ExprRowNum => ClassRowNum
  | ExprExponential _ => ClassExponential
  | ExprNormal _ _ => ClassNormal
  | ExprUniform _ _ => ClassUniform
  | ExprUnary c _ => ClassUnary c
  | ExprBinary c _ _ => ClassBinary c
  | ExprIfElse _ _ _ => ClassIfElse
  end.

(** What a property of [Expr] holds: the tag string or a class. *)
Inductive export :=
| ExportString (s : string)
| ExportClass (c : class).

(** The object literal [Expr], property by property, in source order. *)
Definition Expr_properties : list (string * export) :=
  [ ("KIND", ExportString "@expr");
    ("base", ExportClass ClassBase);
    ("column", ExportClass (ClassNullary ExprColumn));
    ("datetime", ExportClass (ClassNullary ExprDatetime));
    ("logical", ExportClass (ClassNullary ExprLogical));
    ("number", ExportClass (ClassNullary ExprNumber));
    ("text", ExportClass (ClassNullary ExprText));
    ("rownum", ExportClass ClassRowNum);
    ("exponential", ExportClass ClassExponential);
    ("normal", ExportClass ClassNormal);
    ("uniform", ExportClass ClassUniform);
    ("add", ExportClass (ClassBinary ExprAdd));
    ("and", ExportClass (ClassBinary ExprAnd));
    ("divide", ExportClass (ClassBinary ExprDivide));
    ("equal", ExportClass (ClassBinary ExprEqual));
    ("greater", ExportClass (ClassBinary ExprGreater));
    ("greaterEqual", ExportClass (ClassBinary ExprGreaterEqual));
    ("ifElse", ExportClass ClassIfElse);
    ("less", ExportClass (ClassBinary ExprLess));
    ("lessEqual", ExportClass (ClassBinary ExprLessEqual));
    ("multiply", ExportClass (ClassBinary ExprMultiply));
    ("negate", ExportClass (ClassUnary ExprNegate));
    ("not", ExportClass (ClassUnary ExprNot));
    ("notEqual", ExportClass (ClassBinary ExprNotEqual));
    ("or", ExportClass (ClassBinary ExprOr));
    ("power", ExportClass (ClassBinary ExprPower));
    ("remainder", ExportClass (ClassBinary ExprRemainder));
    ("subtract", ExportClass (ClassBinary ExprSubtract));
    ("isLogical", ExportClass (ClassUnary ExprIsLogical));
    ("isDatetime", ExportClass (ClassUnary ExprIsDatetime));
    ("isMissing", ExportClass (ClassUnary ExprIsMissing));
    ("isNumber", ExportClass (ClassUnary ExprIsNumber));
    ("isText", ExportClass (ClassUnary ExprIsText));
    ("toLogical", ExportClass (ClassUnary ExprToLogical));
    ("toDatetime", ExportClass (ClassUnary ExprToDatetime));
    ("toNumber", ExportClass (ClassUnary ExprToNumber));
    ("toString", ExportClass (ClassUnary ExprToString));
    ("toYear", ExportClass (ClassUnary ExprToYear));
    ("toMonth", ExportClass (ClassUnary ExprToMonth));
    ("toDay", ExportClass (ClassUnary ExprToDay));
    ("toWeekday", ExportClass (ClassUnary ExprToWeekday));
    ("toHours", ExportClass (ClassUnary ExprToHours));
    ("toMinutes", ExportClass (ClassUnary ExprToMinutes));
    ("toSeconds", ExportClass (ClassUnary ExprToSeconds)) ].

(** Reading a property of an object literal given as its list of
    properties; [None] is [undefined]. *)
Fixpoint get_property {A : Type} (key : string) (properties : list (string * A))
    : option A :=
  match properties with
  | [] => None
  | (name, x) :: rest => if String.eqb key name then Some x else get_property key rest
  end.

(** [Expr[key]]. *)
Definition Expr_get (key : string) : option export := get_property key Expr_properties.

(** An element of an [OPTIONS] array: a kind, or a display label paired
    with a kind. *)
Inductive option_entry :=
| Plain (kind : string)
| Labelled (label kind : string).

Definition entry_kind (o : option_entry) : string :=
  match o with Plain k => k | Labelled _ k => k end.

Definition ExprNullaryBase_OPTIONS : list option_entry :=
  [Plain "column"; Plain "datetime"; Plain "logical"; Plain "number"; Plain "text"].

Definition ExprNegationBase_OPTIONS : list option_entry :=
  [Labelled "-" "negate"; Plain "not"].

Definition ExprTypecheckBase_OPTIONS : list option_entry :=
  [Plain "isDatetime"; Plain "isLogical"; Plain "isMissing"; Plain "isNumber";
   Plain "isText"].

Definition ExprConvertBase_OPTIONS : list option_entry :=
  [Plain "toLogical"; Plain "toDatetime"; Plain "toNumber"; Plain "toString"].

Definition ExprDatetimeBase_OPTIONS : list option_entry :=
  [Plain "toYear"; Plain "toMonth"; Plain "toDay"; Plain "toWeekday";
   Plain "toHours"; Plain "toMinutes"; Plain "toSeconds"].

Definition ExprArithmeticBase_OPTIONS : list option_entry :=
  [Labelled "+" "add"; Labelled "-" "subtract"; Labelled "*" "multiply";
   Labelled "/" "divide"; Labelled "%" "remainder"; Labelled "**" "power"].

Definition ExprCompareBase_OPTIONS : list option_entry :=
  [Labelled "==" "equal"; Labelled "!=" "notEqual"; Labelled "&gt;" "greater";
   Labelled "&gt;=" "greaterEqual"; Labelled "&lt;=" "lessEqual";
   Labelled "&lt;" "less"].

Definition ExprLogicalBase_OPTIONS : list option_entry :=
  [Plain "and"; Plain "or"].

(** ** Vocabulary of the further properties *)

(** The trees without a random-variate node. *)
Fixpoint random_free (e : Expr) : bool :=
  match e with
  | ExprExponential _ | ExprNormal _ _ | ExprUniform _ _ => false
  | ExprUnary _ arg => random_free arg
  | ExprBinary _ l r => random_free l && random_free r
  | ExprIfElse l m r => random_free l && random_free m && random_free r
  | _ => true
  end.

(** The property keys under which the column nodes of a tree read the
    row. *)
Fixpoint columns `{Host} (e : Expr) : list string :=
  match e with
  | ExprNullaryBase ExprColumn value => [ToString value]
  | ExprUnary _ arg => columns arg
  | ExprBinary _ l r => columns l ++ columns r
  | ExprIfElse l m r => columns l ++ columns m ++ columns r
  | _ => []
  end.

(** A computation that has the same outcome in every generator state and
    leaves the state as it found it. *)
Definition stateless `{Host} {A : Type} (m : M A) : Prop :=
  exists o : outcome A, forall s : prng, m s = (o, s).

(** Two computations that no generator state tells apart. *)
Definition agree `{Host} {A : Type} (m1 m2 : M A) : Prop :=
  forall s : prng, m1 s = m2 s.

(** The types of the values that are not missing. *)
Inductive ty := TyNumber | TyText | TyLogical | TyDatetime.

Definition has_type (t : ty) (v : Value) : bool :=
  match t, v with
  | TyNumber, VNumber _ | TyText, VText _ | TyLogical, VLogical _
  | TyDatetime, VDatetime _ => true
  | _, _ => false
  end.

(** The type each literal class holds. *)
Definition literal_type (c : nullary) : ty :=
  match c with
  | ExprColumn | ExprText => TyText
  | ExprDatetime => TyDatetime
  | ExprLogical => TyLogical
  | ExprNumber => TyNumber
  end.

(** The constructor of a literal class. *)
Definition new_literal (c : nullary) : Value -> outcome Expr :=
  match c with
  | ExprColumn => new_ExprColumn
  | ExprDatetime => new_ExprDatetime
  | ExprLogical => new_ExprLogical
  | ExprNumber => new_ExprNumber
  | ExprText => new_ExprText
  end.

(** A node as [new] gives it: a leaf holds a value its constructor
    accepts.  The constructors of the other classes only require their
    children to be expressions, which the type [Expr] says already. *)
Definition constructed (e : Expr) : Prop :=
  match e with
  | ExprNullaryBase c value => new_literal c value = Return e
  | _ => True
  end.

(** The type of what a node evaluates to, where its class fixes it: it
    does not for a column, [and], [or] and [ifElse]. *)
Definition result_type (e : Expr) : option ty :=
  match e with
  | ExprNullaryBase ExprColumn _ => None
  | ExprNullaryBase c _ => Some (literal_type c)
  | ExprRowNum | ExprExponential _ | ExprNormal _ _ | ExprUniform _ _ => Some TyNumber
  | ExprUnary (Negation ExprNegate) _ => Some TyNumber
  | ExprUnary (Negation ExprNot) _ => Some TyLogical
  | ExprUnary (Typecheck _) _ => Some TyLogical
  | ExprUnary (Convert ExprToLogical) _ => Some TyLogical
  | ExprUnary (Convert ExprToDatetime) _ => Some TyDatetime
  | ExprUnary (Convert ExprToNumber) _ => Some TyNumber
  | ExprUnary (Convert ExprToString) _ => Some TyText
  | ExprUnary (DatetimeField _) _ => Some TyNumber
  | ExprBinary (Arithmetic _) _ _ => Some TyNumber
  | ExprBinary (Compare _) _ _ => Some TyLogical
  | _ => None
  end.

(** The calendar range of each datetime field. *)
Definition field_range (c : datetime) (n : Z) : Prop :=
  match c with
  | ExprToYear => True
  | ExprToMonth => 1 <= n <= 12
  | ExprToDay => 1 <= n <= 31
  | ExprToWeekday => 0 <= n <= 6
  | ExprToHours => 0 <= n <= 23
  | ExprToMinutes | ExprToSeconds => 0 <= n <= 59
  end.

(** [OPTIONS] lists the kinds of exactly the classes [C] of a family. *)
Definition lists_kinds {C : Type} (KIND : C -> string) (OPTIONS : list option_entry) : Prop :=
  forall k : string, In k (map entry_kind OPTIONS) <-> exists c : C, k = KIND c.

(** ** Vocabulary of the statements *)

(** The trees whose serialisation never reaches [ExprRowNum.toJSON]. *)
Fixpoint rownum_free (e : Expr) : bool :=
  match e with
  | ExprRowNum => false
  | ExprUnary _ arg => rownum_free arg
  | ExprBinary _ l r => rownum_free l && rownum_free r
  | ExprIfElse l m r => rownum_free l && rownum_free m && rownum_free r
  | _ => true
  end.

(** What follows the tag and the kind in the array of a node. *)
Definition payload (e : Expr) (children : list json) : list json :=
  match e with
  | ExprNullaryBase _ value => [JValue value]
  | ExprRowNum => []
  | ExprExponential rate => [JValue (VNumber rate)]
  | ExprNormal mean stdDev => [JValue (VNumber mean); JValue (VNumber stdDev)]
  | ExprUniform low high => [JValue (VNumber low); JValue (VNumber high)]
  | _ => children
  end.

Definition children (e : Expr) : list Expr :=
  match e with
  | ExprUnary _ arg => [arg]
  | ExprBinary _ l r => [l; r]
  | ExprIfElse l m r => [l; m; r]
  | _ => []
  end.

(** The Number operation behind each arithmetic class. *)
Definition number_func `{Host} (c : arithmetic) : number -> number -> number :=
  match c with
  | ExprAdd => PrimFloat.add
  | ExprDivide => PrimFloat.div
  | ExprMultiply => PrimFloat.mul
  | ExprPower => Math_pow
  | ExprRemainder => Number.remainder
  | ExprSubtract => PrimFloat.sub
  end.

(** [is_number v]: [typeof v === 'number']. *)
Definition is_number (v : Value) : bool := String.eqb (typeof v) "number".

(** [new Expr.column(name)]. *)
Definition column (name : string) : Expr := ExprNullaryBase ExprColumn (VText name).

(** A literal of class [c] holding [value]. *)
Definition literal (c : nullary) (value : Value) : Expr := ExprNullaryBase c value.

(** The reference generator with nothing recorded. *)
Definition no_variates : prng (Host := Reference.host) := Reference.recorded [].

(** The operands the logical-operator test of [test_js_exec.js] runs
    through. *)
Definition tested_logicals : list Value := [VLogical true; VLogical false; MISSING].

(** JavaScript's [left && right] and [left || right] on values. *)
Definition js_and (left right : Value) : Value := if ToBoolean left then right else left.
Definition js_or (left right : Value) : Value := if ToBoolean left then left else right.

(** * Properties *)

(** ** The calendar *)

Lemma MonthFromTime_range (t : Z) : 0 <= MonthFromTime t <= 11.
Proof.
  unfold MonthFromTime.
  repeat match goal with
         | |- context [if ?b then _ else _] => destruct b
         end; lia.
Qed.

(** [YearFromTime t] is the year ECMAScript defines: the largest one that
    starts no later than [t]. *)
Lemma YearFromTime_spec (t : Z) :
  TimeFromYear (YearFromTime t) <= t < TimeFromYear (YearFromTime t + 1).
Proof.
  assert (Hd : DayFromYear (YearFromTime t) <= Day t < DayFromYear (YearFromTime t + 1)).
  { unfold YearFromTime.
    set (d := Day t). set (y := 1970 + d * 400 / 146097).
    assert (Hy : 146097 * (y - 1970) <= 400 * d < 146097 * (y - 1970) + 146097).
    { unfold y. pose proof (Z.div_mod (d * 400) 146097 ltac:(lia)).
      pose proof (Z.mod_pos_bound (d * 400) 146097 ltac:(lia)). lia. }
    clearbody y. clearbody d.
    destruct (Z.ltb_spec d (DayFromYear y));
      [| destruct (Z.leb_spec (DayFromYear (y + 1)) d)];
      unfold DayFromYear in *; split; Z.to_euclidean_division_equations; lia. }
  unfold TimeFromYear, Day, msPerDay in *.
  pose proof (Z.div_mod t 86400000 ltac:(lia)).
  pose proof (Z.mod_pos_bound t 86400000 ltac:(lia)).
  lia.
Qed.

(** Consecutive years start [DaysInYear] days apart. *)
Lemma DayFromYear_succ (y : Z) : DayFromYear (y + 1) = DayFromYear y + DaysInYear y.
Proof.
  unfold DayFromYear, DaysInYear.
  repeat match goal with
         | |- context [if ?b then _ else _] => destruct b eqn:?
         end;
    rewrite ?negb_true_iff, ?negb_false_iff, ?Z.eqb_eq, ?Z.eqb_neq in *;
    Z.to_euclidean_division_equations; lia.
Qed.

Lemma DayWithinYear_range (t : Z) :
  0 <= DayWithinYear t < DaysInYear (YearFromTime t).
Proof.
  pose proof (YearFromTime_spec t) as Hspec.
  unfold DayWithinYear, TimeFromYear, Day, msPerDay in *.
  rewrite DayFromYear_succ in Hspec.
  pose proof (Z.div_mod t 86400000 ltac:(lia)).
  pose proof (Z.mod_pos_bound t 86400000 ltac:(lia)).
  lia.
Qed.

(** ** Serialisation *)

(** Away from [ExprRowNum], [toJSON] returns the tagged array: the tag, the
    kind, then the children's arrays or the node's scalars. *)
Lemma toJSON_rownum_free (e : Expr) :
  rownum_free e = true ->
  exists js,
    toJSON e = Return (JArray (tag :: JValue (VText (kind e)) :: payload e js)) /\
    Forall2 (fun c j => toJSON c = Return j) (children e) js.
Proof.
  induction e as [c v| | | | |c arg IH|c l IHl r IHr|l IHl m IHm r IHr]; simpl; intros Hfree;
    try discriminate; try (exists []; split; [reflexivity | constructor]).
  - destruct (IH Hfree) as (js & Harg & _).
    eexists [_]. rewrite Harg. simpl. split; [reflexivity|].
    repeat constructor; assumption.
  - apply andb_prop in Hfree as [Hl Hr].
    destruct (IHl Hl) as (jl & Hjl & _), (IHr Hr) as (jr & Hjr & _).
    eexists [_; _]. rewrite Hjl, Hjr. simpl. split; [reflexivity|].
    repeat constructor; assumption.
  - apply andb_prop in Hfree as [Hlm Hr]. apply andb_prop in Hlm as [Hl Hm].
    destruct (IHl Hl) as (jl & Hjl & _), (IHm Hm) as (jm & Hjm & _),
      (IHr Hr) as (jr & Hjr & _).
    eexists [_; _; _]. rewrite Hjl, Hjm, Hjr. simpl. split; [reflexivity|].
    repeat constructor; assumption.
Qed.

(** A tree with an [ExprRowNum] in it has no serialisation. *)
Lemma toJSON_rownum_inside (e : Expr) :
  rownum_free e = false ->
  toJSON e = Throw (ReferenceError "ExprKIND is not defined").
Proof.
  induction e as [c v| | | | |c arg IH|c l IHl r IHr|l IHl m IHm r IHr]; simpl; intros Hfree;
    try discriminate; try reflexivity.
  - rewrite (IH Hfree). reflexivity.
  - destruct (rownum_free l) eqn:Hl.
    + destruct (toJSON_rownum_free l Hl) as (js & -> & _).
      simpl in Hfree. rewrite (IHr Hfree). reflexivity.
    + rewrite (IHl eq_refl). reflexivity.
  - destruct (rownum_free l) eqn:Hl.
    + destruct (toJSON_rownum_free l Hl) as (js & -> & _).
      destruct (rownum_free m) eqn:Hm.
      * destruct (toJSON_rownum_free m Hm) as (js' & -> & _).
        simpl in Hfree. rewrite (IHr Hfree). reflexivity.
      * rewrite (IHm eq_refl). reflexivity.
    + rewrite (IHl eq_refl). reflexivity.
Qed.

(** C1: serialisation does not succeed for every variant: the row-number
    node's [toJSON] names the undeclared [ExprKIND] instead of [Expr.KIND],
    so it throws a [ReferenceError] and produces no array. *)
Theorem toJSON_rownum_throws :
  toJSON ExprRowNum = Throw (ReferenceError "ExprKIND is not defined").
Proof. reflexivity. Qed.

(** ** Structural equality *)

(** No node equals a uniform node, itself included: [ExprUniform.equal]
    asks for an [ExprNormal], which has neither [low] nor [high]. *)
Lemma equal_uniform_false (low high : number) (other : Expr) :
  equal (ExprUniform low high) other = false.
Proof. destruct other; reflexivity. Qed.

(** [ExprExponential.equal] never looks at the rate. *)
Lemma equal_exponential_any_rate (rate rate' : number) :
  equal (ExprExponential rate) (ExprExponential rate') = true.
Proof. reflexivity. Qed.

(** C2: [equal] is not the structural equality described: a uniform node
    equals no node, not even itself, and two exponential nodes are equal
    whatever their rates, as are those of rates 1 and 2. *)
Theorem equal_not_structural :
  (forall (low high : number) (other : Expr), equal (ExprUniform low high) other = false) /\
  (forall rate rate' : number, equal (ExprExponential rate) (ExprExponential rate') = true) /\
  equal (ExprUniform 0 1) (ExprUniform 0 1) = false /\
  equal (ExprExponential 1) (ExprExponential 2) = true /\
  (1 =? 2)%float = false.
Proof.
  split; [exact equal_uniform_false|].
  split; [exact equal_exponential_any_rate|].
  repeat split.
Qed.

(** ** Evaluation *)

Section Evaluation.
Context `{Host}.
Implicit Types (row : Row) (i : number) (s : prng) (v : Value).

Lemma bind_Return {A B} (m : M A) (f : A -> M B) s a s' :
  m s = (Return a, s') -> (m ≫= f) s = f a s'.
Proof. intros Hm. unfold mbind, M_bind. rewrite Hm. reflexivity. Qed.

Lemma bind_Throw {A B} (m : M A) (f : A -> M B) s e s' :
  m s = (Throw e, s') -> (m ≫= f) s = (Throw e, s').
Proof. intros Hm. unfold mbind, M_bind. rewrite Hm. reflexivity. Qed.

(** One step of evaluation: the operand's run is known. *)
Ltac bind_with Hrun := rewrite (bind_Return _ _ _ _ _ Hrun); cbn beta.

Lemma check_true (message : string) (k : M Value) s :
  (check (T := M) true message ;; k) s = k s.
Proof. reflexivity. Qed.

Lemma check_false (message : string) (k : M Value) s :
  (check (T := M) false message ;; k) s = (Throw (Error message), s).
Proof. reflexivity. Qed.

Lemma is_MISSING_true v : is_MISSING v = true <-> v = MISSING.
Proof. destruct v; simpl; split; congruence. Qed.

Lemma is_MISSING_false v : is_MISSING v = false <-> v <> MISSING.
Proof. destruct v; simpl; split; congruence. Qed.

(** On Numbers each function handed to [arithmetic] is the Number
    operation. *)
Lemma arithmetic_func_number (c : arithmetic) (a b : number) :
  arithmetic_func c (VNumber a) (VNumber b) = VNumber (number_func c a b).
Proof. destruct c; reflexivity. Qed.

Lemma safeValue_number (x : number) :
  safeValue (VNumber x) = if is_finite x then VNumber x else MISSING.
Proof. reflexivity. Qed.

(** C4: on Numbers an arithmetic node evaluates to the finite result of
    its operation, and to [MISSING] when that result is infinite or NaN;
    so does arithmetic negation. *)
Theorem arithmetic_result_is_safe :
  (forall (c : arithmetic) (l r : Expr) row i s a s1 b s2,
      run l row i s = (Return (VNumber a), s1) ->
      run r row i s1 = (Return (VNumber b), s2) ->
      run (ExprBinary c l r) row i s =
        (Return (if is_finite (number_func c a b)
                 then VNumber (number_func c a b) else MISSING), s2)) /\
  (forall (arg : Expr) row i s a s1,
      run arg row i s = (Return (VNumber a), s1) ->
      run (ExprUnary ExprNegate arg) row i s =
        (Return (if is_finite (- a) then VNumber (- a) else MISSING), s1)).
Proof.
  split.
  - intros c l r row i s a s1 b s2 Hl Hr.
    cbn [run run_binary]. unfold run_arithmetic.
    bind_with Hl.
    unfold checkNumber. cbn [is_MISSING typeof orb String.eqb Ascii.eqb Bool.eqb].
    rewrite check_true. bind_with Hr. rewrite check_true.
    rewrite arithmetic_func_number, safeValue_number. reflexivity.
  - intros arg row i s a s1 Harg.
    cbn [run run_unary].
    bind_with Harg.
    unfold checkNumber. rewrite check_true.
    reflexivity.
Qed.

(** C3: when both operands of an arithmetic node evaluate to [MISSING] or
    to Numbers, and one of them is [MISSING], the node evaluates to
    [MISSING]. *)
Theorem arithmetic_missing :
  forall (c : arithmetic) (l r : Expr) row i s vl s1 vr s2,
    run l row i s = (Return vl, s1) ->
    run r row i s1 = (Return vr, s2) ->
    (vl = MISSING \/ exists a, vl = VNumber a) ->
    (vr = MISSING \/ exists b, vr = VNumber b) ->
    (vl = MISSING \/ vr = MISSING) ->
    run (ExprBinary c l r) row i s = (Return MISSING, s2).
Proof.
  intros c l r row i s vl s1 vr s2 Hl Hr Tl Tr Hmissing.
  cbn [run run_binary]. unfold run_arithmetic.
  bind_with Hl.
  destruct Tl as [-> | [a ->]], Tr as [-> | [b ->]];
    unfold checkNumber; rewrite check_true; bind_with Hr; rewrite check_true;
    try reflexivity.
  destruct Hmissing; discriminate.
Qed.

(** An operand that is neither [MISSING] nor a Number stops the
    evaluation of an arithmetic node, whatever the other operand is. *)
Lemma arithmetic_requires_numbers (c : arithmetic) (l r : Expr) row i s vl s1 vr s2 :
  run l row i s = (Return vl, s1) ->
  run r row i s1 = (Return vr, s2) ->
  (vl = MISSING \/ exists a, vl = VNumber a) ->
  is_MISSING vr || is_number vr = false ->
  run (ExprBinary c l r) row i s =
    (Throw (Error ("Require number for " +:+ arithmetic_KIND c)), s2).
Proof.
  intros Hl Hr Tl Tr.
  cbn [run run_binary]. unfold run_arithmetic.
  bind_with Hl.
  destruct Tl as [-> | [a ->]];
    unfold checkNumber; rewrite check_true; bind_with Hr;
    unfold is_number in Tr; rewrite Tr; apply check_false.
Qed.

(** C5: [and] yields the left value, and nothing of the right operand
    happens, when the left value is falsy, as [MISSING] is; otherwise it
    is the evaluation of the right operand.  [or] is the mirror image.
    The value handed back is the operand's own, whatever its type. *)
Theorem logical_short_circuit :
  ToBoolean MISSING = false /\
  forall (l r : Expr) row i s v s1,
    run l row i s = (Return v, s1) ->
    run (ExprBinary ExprAnd l r) row i s =
      (if ToBoolean v then run r row i s1 else (Return v, s1)) /\
    run (ExprBinary ExprOr l r) row i s =
      (if ToBoolean v then (Return v, s1) else run r row i s1).
Proof.
  split; [reflexivity|].
  intros l r row i s v s1 Hl.
  cbn [run run_binary].
  rewrite !(bind_Return _ _ _ _ _ Hl); cbn beta.
  destruct (ToBoolean v); split; reflexivity.
Qed.

(** C6: a comparison with a [MISSING] operand evaluates to [MISSING],
    whatever the type of the other operand; two operands that are not
    missing and differ in type make it throw the error of
    [util.checkTypeEqual]. *)
Theorem comparison_missing_then_types :
  forall (c : compare) (l r : Expr) row i s vl s1 vr s2,
    run l row i s = (Return vl, s1) ->
    run r row i s1 = (Return vr, s2) ->
    ((vl = MISSING \/ vr = MISSING) ->
     run (ExprBinary c l r) row i s = (Return MISSING, s2)) /\
    (vl <> MISSING -> vr <> MISSING -> typeof vl <> typeof vr ->
     run (ExprBinary c l r) row i s =
       (Throw (Error ("Require equal types for " +:+ compare_KIND c)), s2)).
Proof.
  intros c l r row i s vl s1 vr s2 Hl Hr.
  cbn [run run_binary]. unfold comparison.
  bind_with Hl. bind_with Hr.
  unfold checkTypeEqual. split.
  - intros [-> | ->].
    + reflexivity.
    + rewrite orb_true_r. destruct vl; reflexivity.
  - intros Nl Nr Ht.
    destruct vl, vr; simpl in Ht; try congruence; apply check_false.
Qed.

(** The string form of a date is ["Invalid Date"] exactly when its time
    value is NaN: otherwise it starts with the name of a weekday. *)
Lemma Date_toString_Invalid (d : Date) :
  String.eqb (Date_toString d) "Invalid Date" = true <-> DateValue d = None.
Proof.
  unfold Date_toString. destruct (DateValue d) as [tv|]; [|split; reflexivity].
  split; [|discriminate].
  unfold DateString, DayName.
  repeat match goal with
         | |- context [match ?x with _ => _ end] => destruct x
         end; discriminate.
Qed.

(** C7: [toDatetime] of a value from which [new Date] makes an invalid
    date, and [toNumber] of a text in which [parseFloat] finds no number,
    evaluate to [MISSING]; and no conversion throws once its operand has
    a value. *)
Theorem conversion_failures_are_missing :
  (forall (arg : Expr) row i s v s1,
      run arg row i s = (Return v, s1) ->
      DateValue (new_Date v) = None ->
      run (ExprUnary ExprToDatetime arg) row i s = (Return MISSING, s1)) /\
  (forall (arg : Expr) row i s text s1,
      run arg row i s = (Return (VText text), s1) ->
      Number.isNaN (parseFloat text) = true ->
      run (ExprUnary ExprToNumber arg) row i s = (Return MISSING, s1)) /\
  (forall (c : convert) (arg : Expr) row i s v s1,
      run arg row i s = (Return v, s1) ->
      exists v', run (ExprUnary c arg) row i s = (Return v', s1)).
Proof.
  split; [|split].
  - intros arg row i s v s1 Harg Hinvalid.
    cbn [run run_unary]. bind_with Harg.
    destruct (is_MISSING v); [reflexivity|].
    apply Date_toString_Invalid in Hinvalid.
    unfold mret, M_ret. rewrite Hinvalid. reflexivity.
  - intros arg row i s text s1 Harg Hnan.
    cbn [run run_unary]. bind_with Harg.
    unfold mret, M_ret. rewrite Hnan. reflexivity.
  - intros c arg row i s v s1 Harg.
    destruct c; cbn [run run_unary]; bind_with Harg;
      try (destruct (is_MISSING v)); eexists; reflexivity.
Qed.

(** C8: each of [isLogical], [isDatetime], [isNumber], [isText] evaluates
    to [MISSING] on a [MISSING] operand; [isMissing] always evaluates to a
    boolean, [true] exactly when the operand is [MISSING]. *)
Theorem type_predicates_missing :
  forall (arg : Expr) row i s v s1,
    run arg row i s = (Return v, s1) ->
    (v = MISSING ->
     forall c : typecheck, c <> ExprIsMissing ->
       run (ExprUnary c arg) row i s = (Return MISSING, s1)) /\
    (exists b : bool,
       run (ExprUnary ExprIsMissing arg) row i s = (Return (VLogical b), s1) /\
       (b = true <-> v = MISSING)).
Proof.
  intros arg row i s v s1 Harg. split.
  - intros -> c Hc.
    destruct c; try congruence; cbn [run run_unary]; unfold typeCheck;
      bind_with Harg; reflexivity.
  - exists (is_MISSING v). split; [|apply is_MISSING_true].
    cbn [run run_unary]. bind_with Harg. reflexivity.
Qed.

Lemma succ_of_month (m : Z) :
  0 <= m <= 11 -> (Number.of_Z m + one)%float = Number.of_Z (m + 1).
Proof.
  intros Hm.
  assert (Hcases : m = 0 \/ m = 1 \/ m = 2 \/ m = 3 \/ m = 4 \/ m = 5 \/ m = 6 \/
                   m = 7 \/ m = 8 \/ m = 9 \/ m = 10 \/ m = 11) by lia.
  repeat destruct Hcases as [-> | Hcases]; try subst m; reflexivity.
Qed.

(** C9: a datetime field of a [MISSING] operand is [MISSING]; of any other
    value that is not a [Date] it is the type error of the [util.check] in
    [dateValue], and nothing is converted; and [toMonth] of a valid [Date]
    with time value [tv] is the number of the month of [tv] in local time,
    January being 1: one more than ECMAScript's [MonthFromTime], which lies
    between 1 and 12. *)
Theorem datetime_fields :
  forall (c : datetime) (arg : Expr) row i s v s1,
    run arg row i s = (Return v, s1) ->
    (v = MISSING -> run (ExprUnary c arg) row i s = (Return MISSING, s1)) /\
    (v <> MISSING -> instanceof_Date v = false ->
     run (ExprUnary c arg) row i s =
       (Throw (Error ("Require date for " +:+ datetime_KIND c)), s1)) /\
    (forall tv : Z, v = VDatetime (mkDate (Some tv)) ->
     run (ExprUnary ExprToMonth arg) row i s =
       (Return (VNumber (Number.of_Z (MonthFromTime (LocalTime tv) + 1))), s1) /\
     1 <= MonthFromTime (LocalTime tv) + 1 <= 12).
Proof.
  intros c arg row i s v s1 Harg. split; [|split].
  - intros ->. cbn [run run_unary]. unfold dateValue.
    bind_with Harg. reflexivity.
  - intros Hv Hdate. cbn [run run_unary]. unfold dateValue.
    bind_with Harg.
    apply is_MISSING_false in Hv. rewrite Hv, Hdate. apply check_false.
  - intros tv ->.
    pose proof (MonthFromTime_range (LocalTime tv)) as Hrange.
    split; [|lia].
    cbn [run run_unary]. unfold dateValue.
    bind_with Harg.
    cbn [is_MISSING instanceof_Date]. rewrite check_true.
    cbn [call]. unfold getMonth, localField. cbn [DateValue].
    rewrite <- (succ_of_month _ Hrange). reflexivity.
Qed.

(** C10: [ifElse] with a [MISSING] condition is [MISSING] and nothing of
    either branch happens; with a truthy condition it is the evaluation of
    the middle child alone, otherwise that of the right child alone. *)
Theorem ifElse_selects :
  forall (l m r : Expr) row i s cond s1,
    run l row i s = (Return cond, s1) ->
    run (ExprIfElse l m r) row i s =
      (if is_MISSING cond then (Return MISSING, s1)
       else if ToBoolean cond then run m row i s1 else run r row i s1).
Proof.
  intros l m r row i s cond s1 Hl.
  cbn [run]. bind_with Hl.
  destruct (is_MISSING cond), (ToBoolean cond); reflexivity.
Qed.

End Evaluation.

(** * Further properties of the expression classes *)

Lemma Expr_get_kind (e : Expr) : Expr_get (kind e) = Some (ExportClass (class_of e)).
Proof.
  destruct e as [c v| | | | |c arg|c l r|l m r]; try reflexivity.
  - destruct c; reflexivity.
  - destruct c as [[]|[]|[]|[]]; reflexivity.
  - destruct c as [[]|[]|[]]; reflexivity.
Qed.

Lemma kind_class (a b : Expr) : kind a = kind b -> class_of a = class_of b.
Proof.
  intros Hkind. pose proof (Expr_get_kind a) as Ha. rewrite Hkind, Expr_get_kind in Ha.
  congruence.
Qed.

(** The export table [Expr] is consistent with the classes: looking up the
    [KIND] of any node gives the class that node was built by, the entry
    [KIND] is the family tag ['@expr'], and no property name is listed twice
    (so no later entry of the object literal overwrites an earlier one). *)
Theorem Expr_table_consistent :
  (forall e : Expr, Expr_get (kind e) = Some (ExportClass (class_of e))) /\
  Expr_get "KIND" = Some (ExportString Expr_KIND) /\
  NoDup (map fst Expr_properties).
Proof.
  split; [exact Expr_get_kind|]. split; [reflexivity|].
  apply (bool_decide_unpack _). vm_compute. exact I.
Qed.

Ltac by_class :=
  unshelve eexists; [constructor | reflexivity].

Ltac lists_kinds_tac :=
  unfold lists_kinds; intros k; split;
  [ simpl; intros Hin;
    repeat (destruct Hin as [<- | Hin]; [by_class|]); contradiction
  | intros [c ->]; destruct c; simpl; tauto ].

(** Each base class's [OPTIONS] list offers exactly the [KIND]s of its
    subclasses: every listed kind is the kind of a class of that family, and
    every class of the family is listed. *)
Theorem OPTIONS_list_the_kinds :
  lists_kinds nullary_KIND ExprNullaryBase_OPTIONS /\
  lists_kinds (fun c : negation => unary_KIND c) ExprNegationBase_OPTIONS /\
  lists_kinds (fun c : typecheck => unary_KIND c) ExprTypecheckBase_OPTIONS /\
  lists_kinds (fun c : convert => unary_KIND c) ExprConvertBase_OPTIONS /\
  lists_kinds datetime_KIND ExprDatetimeBase_OPTIONS /\
  lists_kinds arithmetic_KIND ExprArithmeticBase_OPTIONS /\
  lists_kinds compare_KIND ExprCompareBase_OPTIONS /\
  lists_kinds (fun c : logical => binary_KIND c) ExprLogicalBase_OPTIONS.
Proof. repeat (split; [lists_kinds_tac|]). lists_kinds_tac. Qed.

(** Whenever [equal] answers [true] the two nodes belong to the same class
    and their children are pairwise [equal]. *)
Theorem equal_same_class (a b : Expr) :
  equal a b = true ->
  class_of a = class_of b /\
  Forall2 (fun x y => equal x y = true) (children a) (children b).
Proof.
  intros Hequal.
  assert (Hkind : kind a = kind b).
  { destruct a, b; try discriminate Hequal; try reflexivity; simpl in Hequal;
      repeat (apply andb_prop in Hequal as [Hequal ?]);
      try (apply String.eqb_eq; assumption). }
  split; [apply kind_class, Hkind|].
  destruct a, b; try discriminate Hequal; try discriminate Hkind; simpl in *;
    repeat (apply andb_prop in Hequal as [Hequal ?]); repeat constructor; assumption.
Qed.

Lemma SFeqb_sym (x y : spec_float) : SFeqb x y = SFeqb y x.
Proof.
  unfold SFeqb, SFcompare.
  destruct x as [[]|[]| |[] mx ex], y as [[]|[]| |[] my ey]; try reflexivity;
    change (Pos.compare_cont Eq mx my) with (mx ?= my)%positive;
    change (Pos.compare_cont Eq my mx) with (my ?= mx)%positive;
    rewrite (Z.compare_antisym ey ex), (Pos.compare_antisym my mx);
    destruct (ey ?= ex); simpl; try reflexivity;
    destruct (my ?= mx)%positive; reflexivity.
Qed.

Lemma number_eqb_sym (x y : number) : (x =? y)%float = (y =? x)%float.
Proof. rewrite !FloatAxioms.eqb_spec. apply SFeqb_sym. Qed.

Lemma util_equal_sym (l r : Value) : util_equal l r = util_equal r l.
Proof.
  destruct l, r; simpl; try reflexivity.
  - apply number_eqb_sym.
  - apply String.eqb_sym.
  - destruct b, b0; reflexivity.
  - apply number_eqb_sym.
Qed.

(** [equal] gives the same answer with its two nodes exchanged. *)
Theorem equal_symmetric (a b : Expr) : equal a b = equal b a.
Proof.
  revert b.
  induction a as [c v| | | | |c arg IH|c l IHl r IHr|l IHl m IHm r IHr];
    intros b; destruct b; simpl; try reflexivity.
  - rewrite String.eqb_sym, util_equal_sym. reflexivity.
  - rewrite (number_eqb_sym mean), (number_eqb_sym stdDev). reflexivity.
  - rewrite String.eqb_sym, IH. reflexivity.
  - rewrite String.eqb_sym, IHl, IHr. reflexivity.
  - rewrite IHl, IHm, IHr. reflexivity.
Qed.

Lemma toJSON_shape (e : Expr) (j : json) :
  toJSON e = Return j ->
  exists js,
    j = JArray (tag :: JValue (VText (kind e)) :: payload e js) /\
    Forall2 (fun c j => toJSON c = Return j) (children e) js.
Proof.
  intros Hj.
  destruct (rownum_free e) eqn:Hfree.
  - destruct (toJSON_rownum_free e Hfree) as (js & Hshape & Hchildren).
    exists js. split; [congruence | assumption].
  - rewrite (toJSON_rownum_inside e Hfree) in Hj. discriminate.
Qed.

Lemma toJSON_same_class (e1 e2 : Expr) (j : json) :
  toJSON e1 = Return j -> toJSON e2 = Return j -> class_of e1 = class_of e2.
Proof.
  intros H1 H2. apply kind_class.
  destruct (toJSON_shape _ _ H1) as (js1 & -> & _).
  destruct (toJSON_shape _ _ H2) as (js2 & E & _).
  congruence.
Qed.

(** [toJSON] has exactly two outcomes.  On a tree without a row-number
    node it returns the array [[Expr.KIND, kind, ...]] whose remaining
    elements are the node's own fields and the arrays of its children; on a
    tree with a row-number node anywhere inside it throws the
    [ReferenceError] of that node. *)
Theorem toJSON_outcome (e : Expr) :
  (rownum_free e = true /\
   exists js : list json,
     toJSON e = Return (JArray (tag :: JValue (VText (kind e)) :: payload e js)) /\
     Forall2 (fun c j => toJSON c = Return j) (children e) js) \/
  (rownum_free e = false /\
   toJSON e = Throw (ReferenceError "ExprKIND is not defined")).
Proof.
  destruct (rownum_free e) eqn:Hfree.
  - left. split; [reflexivity|]. apply toJSON_rownum_free, Hfree.
  - right. split; [reflexivity|]. apply toJSON_rownum_inside, Hfree.
Qed.

Ltac children_json F :=
  repeat match type of F with
         | Forall2 _ (_ :: _) _ =>
             let Hj := fresh "Hj" in
             let F' := fresh "F" in
             inversion F as [|? ? ? ? Hj F']; subst; clear F; rename F' into F
         | Forall2 _ [] _ => inversion F; subst; clear F
         end.

(** [toJSON] loses nothing: two trees with the same JSON form are the same
    tree. *)
Theorem toJSON_injective (e1 e2 : Expr) (j : json) :
  toJSON e1 = Return j -> toJSON e2 = Return j -> e1 = e2.
Proof.
  revert e2 j.
  induction e1 as [c v| | | | |c arg IH|c l IHl r IHr|l IHl m IHm r IHr];
    intros e2 j H1 H2;
    pose proof (toJSON_same_class _ _ _ H1 H2) as Hclass;
    destruct e2; try discriminate Hclass; try (injection Hclass; intros; subst);
    destruct (toJSON_shape _ _ H1) as (js1 & -> & F1);
    destruct (toJSON_shape _ _ H2) as (js2 & E & F2);
    simpl in E; try (injection E; intros; subst); simpl in *.
  all: try (f_equal; congruence).
  all: try reflexivity.
  - children_json F1. children_json F2. f_equal; eauto.
  - children_json F1. children_json F2. f_equal; eauto.
  - children_json F1. children_json F2. f_equal; eauto.
Qed.

Lemma InLeapYear_cases (t : Z) :
  (InLeapYear t = 0 /\ DaysInYear (YearFromTime t) = 365) \/
  (InLeapYear t = 1 /\ DaysInYear (YearFromTime t) = 366).
Proof.
  unfold InLeapYear.
  destruct (Z.eqb_spec (DaysInYear (YearFromTime t)) 366) as [Hleap | Hcommon];
    [right; auto | left; split; [reflexivity|]].
  unfold DaysInYear in *.
  repeat match goal with
         | |- context [if ?b then _ else _] => destruct b
         end; congruence.
Qed.

Lemma DateFromTime_range (t : Z) : 1 <= DateFromTime t <= 31.
Proof.
  pose proof (DayWithinYear_range t) as Hday.
  unfold DateFromTime, MonthFromTime.
  destruct (InLeapYear_cases t) as [[-> Hyear] | [-> Hyear]]; rewrite Hyear in Hday;
    generalize dependent (DayWithinYear t); intros d Hday;
    repeat match goal with
           | |- context [if ?d <? ?k then _ else _] => destruct (Z.ltb_spec d k)
           end; lia.
Qed.

Lemma field_ranges (t : Z) :
  0 <= WeekDay t <= 6 /\ 0 <= HourFromTime t <= 23 /\
  0 <= MinFromTime t <= 59 /\ 0 <= SecFromTime t <= 59.
Proof.
  unfold WeekDay, HourFromTime, MinFromTime, SecFromTime.
  pose proof (Z.mod_pos_bound (Day t + 4) 7 ltac:(lia)).
  pose proof (Z.mod_pos_bound (t / msPerHour) 24 ltac:(lia)).
  pose proof (Z.mod_pos_bound (t / msPerMinute) 60 ltac:(lia)).
  pose proof (Z.mod_pos_bound (t / msPerSecond) 60 ltac:(lia)).
  lia.
Qed.

Lemma SFcompare_antisym (x y : spec_float) :
  SFcompare y x = option_map CompOpp (SFcompare x y).
Proof.
  unfold SFcompare.
  destruct x as [[]|[]| |[] mx ex], y as [[]|[]| |[] my ey]; try reflexivity;
    change (Pos.compare_cont Eq mx my) with (mx ?= my)%positive;
    change (Pos.compare_cont Eq my mx) with (my ?= mx)%positive;
    rewrite (Z.compare_antisym ex ey), (Pos.compare_antisym mx my);
    destruct (ex ?= ey); simpl; try reflexivity;
    destruct (mx ?= my)%positive; reflexivity.
Qed.

Lemma not_nan_Prim2SF (x : number) : is_nan x = false -> Prim2SF x <> S754_nan.
Proof.
  unfold is_nan. rewrite FloatAxioms.eqb_spec. intros Hx Hnan. rewrite Hnan in Hx.
  discriminate.
Qed.

Lemma nan_Prim2SF (x : number) : is_nan x = true -> Prim2SF x = S754_nan.
Proof.
  unfold is_nan. rewrite FloatAxioms.eqb_spec. unfold SFeqb, SFcompare.
  destruct (Prim2SF x) as [[]|[]| |[] m e]; try discriminate; try reflexivity;
    rewrite Z.compare_refl; change (Pos.compare_cont Eq m m) with (m ?= m)%positive;
    rewrite Pos.compare_refl; discriminate.
Qed.

Lemma eqb_nan (a b : number) :
  is_nan a = true \/ is_nan b = true -> (a =? b)%float = false.
Proof.
  rewrite FloatAxioms.eqb_spec. unfold SFeqb, SFcompare.
  intros [Hnan | Hnan]; apply nan_Prim2SF in Hnan; rewrite Hnan;
    [reflexivity | destruct (Prim2SF a); reflexivity].
Qed.

Lemma number_trichotomy (a b : number) :
  is_nan a = false -> is_nan b = false ->
  ((a <? b)%float = true /\ (a =? b)%float = false /\ (b <? a)%float = false) \/
  ((a <? b)%float = false /\ (a =? b)%float = true /\ (b <? a)%float = false) \/
  ((a <? b)%float = false /\ (a =? b)%float = false /\ (b <? a)%float = true).
Proof.
  intros Ha Hb. apply not_nan_Prim2SF in Ha, Hb.
  rewrite !ltb_spec, FloatAxioms.eqb_spec. unfold SFltb, SFeqb.
  rewrite (SFcompare_antisym (Prim2SF a) (Prim2SF b)).
  destruct (SFcompare (Prim2SF a) (Prim2SF b)) as [[]|] eqn:Hcompare; simpl; auto.
  exfalso. unfold SFcompare in Hcompare.
  destruct (Prim2SF a) as [| | |[]], (Prim2SF b) as [| | |[]]; try discriminate; congruence.
Qed.

Lemma is_zero_Prim2SF (b : number) :
  is_zero b = true -> exists sgn : bool, Prim2SF b = S754_zero sgn.
Proof.
  unfold is_zero. rewrite FloatAxioms.eqb_spec.
  change (Prim2SF zero) with (S754_zero false).
  destruct (Prim2SF b) as [sgn|[]| |[]]; try discriminate. eauto.
Qed.

Lemma not_finite_Prim2SF (x : number) :
  Prim2SF x = S754_nan \/ (exists sgn : bool, Prim2SF x = S754_infinity sgn) ->
  is_finite x = false.
Proof.
  unfold is_finite, is_nan, is_infinity.
  rewrite !FloatAxioms.eqb_spec, abs_spec.
  change (Prim2SF infinity) with (S754_infinity false).
  intros [-> | [sgn ->]]; [reflexivity | destruct sgn; reflexivity].
Qed.

Lemma div_by_zero (a b : number) : is_zero b = true -> is_finite (a / b) = false.
Proof.
  intros Hb. destruct (is_zero_Prim2SF b Hb) as [sgn Hzero].
  apply not_finite_Prim2SF. rewrite div_spec, Hzero. unfold SF64div, SFdiv.
  destruct (Prim2SF a); eauto.
Qed.

Lemma remainder_by_zero (a b : number) :
  is_zero b = true -> is_finite (Number.remainder a b) = false.
Proof.
  intros Hb. destruct (is_zero_Prim2SF b Hb) as [sgn Hzero].
  unfold Number.remainder. rewrite Hzero.
  destruct (Prim2SF a); reflexivity.
Qed.

(** ** Evaluation on any host *)

Section Coverage.
Context `{Host}.
Implicit Types (row : Row) (i : number) (s : prng) (v : Value).

Ltac bind_with Hrun := rewrite (bind_Return _ _ _ _ _ Hrun); cbn beta.
Ltac unfold_run :=
  cbn [run run_unary run_binary];
  unfold run_arithmetic, comparison, typeCheck, dateValue.

(** Every unary operation but [isMissing] maps a missing argument to
    [MISSING]. *)
Theorem unary_missing_propagates :
  forall (c : unary) (arg : Expr) row i s s1,
    c <> ExprIsMissing ->
    run arg row i s = (Return MISSING, s1) ->
    run (ExprUnary c arg) row i s = (Return MISSING, s1).
Proof.
  intros c arg row i s s1 Hc Harg.
  destruct c as [[]|[]|[]|[]]; try congruence; unfold_run; bind_with Harg; reflexivity.
Qed.

(** An exception thrown by an operand leaves the enclosing node unchanged:
    from the argument of a unary node, from the left operand of a binary
    node, from the condition of [ifElse], from the right operand of a
    comparison, and from the right operand of an arithmetic node whose left
    operand passed [checkNumber]. *)
Theorem errors_propagate :
  (forall (c : unary) (arg : Expr) row i s e s1,
      run arg row i s = (Throw e, s1) ->
      run (ExprUnary c arg) row i s = (Throw e, s1)) /\
  (forall (c : binary) (l r : Expr) row i s e s1,
      run l row i s = (Throw e, s1) ->
      run (ExprBinary c l r) row i s = (Throw e, s1)) /\
  (forall (l m r : Expr) row i s e s1,
      run l row i s = (Throw e, s1) ->
      run (ExprIfElse l m r) row i s = (Throw e, s1)) /\
  (forall (c : compare) (l r : Expr) row i s vl s1 e s2,
      run l row i s = (Return vl, s1) ->
      run r row i s1 = (Throw e, s2) ->
      run (ExprBinary c l r) row i s = (Throw e, s2)) /\
  (forall (c : arithmetic) (l r : Expr) row i s vl s1 e s2,
      run l row i s = (Return vl, s1) ->
      is_MISSING vl || is_number vl = true ->
      run r row i s1 = (Throw e, s2) ->
      run (ExprBinary c l r) row i s = (Throw e, s2)).
Proof.
  repeat split.
  - intros c arg row i s e s1 Harg.
    destruct c as [[]|[]|[]|[]]; unfold_run; apply (bind_Throw _ _ _ _ _ Harg).
  - intros c l r row i s e s1 Hl.
    destruct c as [c|c|[]]; unfold_run; apply (bind_Throw _ _ _ _ _ Hl).
  - intros l m r row i s e s1 Hl. cbn [run]. apply (bind_Throw _ _ _ _ _ Hl).
  - intros c l r row i s vl s1 e s2 Hl Hr. unfold_run. bind_with Hl.
    apply (bind_Throw _ _ _ _ _ Hr).
  - intros c l r row i s vl s1 e s2 Hl Hvl Hr. unfold_run. bind_with Hl.
    unfold checkNumber. unfold is_number in Hvl. rewrite Hvl, check_true.
    apply (bind_Throw _ _ _ _ _ Hr).
Qed.

(** Arithmetic on a value that is neither [MISSING] nor a number throws.
    The left operand is checked before the right one is evaluated, so the
    right operand's effects do not happen; the message names the node's
    kind, except for [negate], which reads the unset field [name] and so
    says [undefined]. *)
Theorem arithmetic_rejects_non_numbers :
  (forall (c : arithmetic) (l r : Expr) row i s vl s1,
      run l row i s = (Return vl, s1) ->
      is_MISSING vl || is_number vl = false ->
      run (ExprBinary c l r) row i s =
        (Throw (Error ("Require number for " +:+ arithmetic_KIND c)), s1)) /\
  (forall (c : arithmetic) (l r : Expr) row i s vl s1 vr s2,
      run l row i s = (Return vl, s1) ->
      is_MISSING vl || is_number vl = true ->
      run r row i s1 = (Return vr, s2) ->
      is_MISSING vr || is_number vr = false ->
      run (ExprBinary c l r) row i s =
        (Throw (Error ("Require number for " +:+ arithmetic_KIND c)), s2)) /\
  (forall (arg : Expr) row i s v s1,
      run arg row i s = (Return v, s1) ->
      is_MISSING v || is_number v = false ->
      run (ExprUnary ExprNegate arg) row i s =
        (Throw (Error "Require number for undefined"), s1)).
Proof.
  repeat split.
  - intros c l r row i s vl s1 Hl Hvl. unfold_run. bind_with Hl.
    unfold checkNumber. unfold is_number in Hvl. rewrite Hvl. apply check_false.
  - intros c l r row i s vl s1 vr s2 Hl Hvl Hr Hvr. unfold_run. bind_with Hl.
    unfold checkNumber. unfold is_number in Hvl, Hvr. rewrite Hvl, check_true.
    bind_with Hr. rewrite Hvr. apply check_false.
  - intros arg row i s v s1 Harg Hv. unfold_run. bind_with Harg.
    unfold checkNumber. unfold is_number in Hv. rewrite Hv. apply check_false.
Qed.

(** Inversion of a successful bind. *)
Lemma bind_Return_inv {A B} (m : M A) (f : A -> M B) s b s' :
  (m ≫= f) s = (Return b, s') ->
  exists a s1, m s = (Return a, s1) /\ f a s1 = (Return b, s').
Proof.
  unfold mbind, M_bind. destruct (m s) as [[a|e] s1]; [|discriminate].
  intros Hf. exists a, s1. split; [reflexivity | assumption].
Qed.

Lemma check_Return_inv (condition : bool) (message : string) (k : M Value) s v s' :
  (check (T := M) condition message ;; k) s = (Return v, s') ->
  condition = true /\ k s = (Return v, s').
Proof. destruct condition; [split; [reflexivity | assumption] | discriminate]. Qed.

Lemma ret_Return_inv (v v' : Value) s s' :
  mret (M := M) v s = (Return v', s') -> v = v' /\ s = s'.
Proof. intros Hret. injection Hret as -> ->. split; reflexivity. Qed.

Lemma binary_arithmetic_finite (c : arithmetic) (l r : Expr) row i s v s' :
  run (ExprBinary c l r) row i s = (Return v, s') ->
  v = MISSING \/ exists x : number, v = VNumber x /\ is_finite x = true.
Proof.
  unfold_run. intros Hrun.
  apply bind_Return_inv in Hrun as (vl & s1 & _ & Hrun).
  apply check_Return_inv in Hrun as [Hvl Hrun].
  apply bind_Return_inv in Hrun as (vr & s2 & _ & Hrun).
  apply check_Return_inv in Hrun as [Hvr Hrun].
  apply ret_Return_inv in Hrun as [<- _].
  destruct vl; try discriminate Hvl; [left; reflexivity|].
  destruct vr; try discriminate Hvr; [left; reflexivity|].
  cbn [is_MISSING orb]. rewrite arithmetic_func_number, safeValue_number.
  destruct (is_finite _) eqn:Hfinite; [right; eauto | left; reflexivity].
Qed.

Lemma negate_finite (arg : Expr) row i s v s' :
  run (ExprUnary ExprNegate arg) row i s = (Return v, s') ->
  v = MISSING \/ exists x : number, v = VNumber x /\ is_finite x = true.
Proof.
  unfold_run. intros Hrun.
  apply bind_Return_inv in Hrun as (va & s1 & _ & Hrun).
  apply check_Return_inv in Hrun as [Hva Hrun].
  apply ret_Return_inv in Hrun as [<- _].
  destruct va; try discriminate Hva; [left; reflexivity|].
  cbn [is_MISSING]. unfold js_negate. cbn [ToNumber]. rewrite safeValue_number.
  destruct (is_finite _) eqn:Hfinite; [right; eauto | left; reflexivity].
Qed.

(** An arithmetic node or [negate] that returns, returns [MISSING] or a
    finite number: never [NaN] and never an infinity. *)
Theorem arithmetic_yields_finite :
  (forall (c : arithmetic) (l r : Expr) row i s v s',
      run (ExprBinary c l r) row i s = (Return v, s') ->
      v = MISSING \/ exists x : number, v = VNumber x /\ is_finite x = true) /\
  (forall (arg : Expr) row i s v s',
      run (ExprUnary ExprNegate arg) row i s = (Return v, s') ->
      v = MISSING \/ exists x : number, v = VNumber x /\ is_finite x = true).
Proof. split; [exact binary_arithmetic_finite | exact negate_finite]. Qed.

Lemma check_outcome_inv {A} (condition : bool) (message : string) (x e : A) :
  (check (T := outcome) condition message ;; mret x) = Return e ->
  condition = true /\ e = x.
Proof.
  destruct condition; [|discriminate].
  intros Hreturn. injection Hreturn as <-. split; reflexivity.
Qed.

Ltac step_in Hrun :=
  cbn [mbind M_bind mret M_ret mthrow M_throw call check checkNumber checkTypeEqual
       is_MISSING instanceof_Date typeof orb andb negb String.eqb Ascii.eqb Bool.eqb]
    in Hrun.

Ltac operand Hrun v s :=
  apply bind_Return_inv in Hrun as (v & s & _ & Hrun).

Ltac conclude Hrun :=
  step_in Hrun; try discriminate Hrun;
  injection Hrun as <- _;
  unfold safeValue;
  repeat match goal with
         | |- context [if ?b then _ else _] => destruct b
         end;
  auto.



(** Conversions do not let invalid values through: [toDatetime] returns
    [MISSING] or a valid date (never an Invalid Date), [toNumber] of a text
    returns [MISSING] or a number that is not [NaN], and [toNumber] of a
    logical is 1 or 0. *)
Theorem conversions_yield_no_invalid_value :
  (forall (arg : Expr) row i s v s',
      run (ExprUnary ExprToDatetime arg) row i s = (Return v, s') ->
      v = MISSING \/ exists tv : Z, v = VDatetime (mkDate (Some tv))) /\
  (forall (arg : Expr) row i s text s1 v s',
      run arg row i s = (Return (VText text), s1) ->
      run (ExprUnary ExprToNumber arg) row i s = (Return v, s') ->
      v = MISSING \/ exists x : number, v = VNumber x /\ Number.isNaN x = false) /\
  (forall (arg : Expr) row i s b s1,
      run arg row i s = (Return (VLogical b), s1) ->
      run (ExprUnary ExprToNumber arg) row i s =
        (Return (VNumber (if b then 1 else 0)), s1)).
Proof.
  repeat split.
  - intros arg row i s v s'. unfold_run. intros Hrun.
    operand Hrun va s1.
    destruct (is_MISSING va); [injection Hrun as <- _; left; reflexivity|].
    injection Hrun as <- _.
    destruct (String.eqb (Date_toString (new_Date va)) "Invalid Date") eqn:Hvalid;
      [left; reflexivity|].
    right. destruct (new_Date va) as [[tv|]] eqn:Hdate.
    + exists tv. reflexivity.
    + rewrite (proj2 (Date_toString_Invalid (mkDate None)) eq_refl) in Hvalid.
      discriminate.
  - intros arg row i s text s1 v s' Harg. unfold_run. bind_with Harg.
    intros Hrun. injection Hrun as <- _.
    destruct (Number.isNaN (parseFloat text)) eqn:Hnan; [left; reflexivity|].
    right. eauto.
  - intros arg row i s b s1 Harg. unfold_run. bind_with Harg. reflexivity.
Qed.

(** Converting twice with the same conversion is converting once, with the
    same result, the same exception and the same effect on the generator. *)
Theorem conversions_idempotent :
  forall (c : convert) (e : Expr) row i s,
    run (ExprUnary c (ExprUnary c e)) row i s = run (ExprUnary c e) row i s.
Proof.
  intros c e row i s.
  cbn [run]. generalize (run e row i). intros m.
  destruct c; cbn [run_unary]; unfold mbind, M_bind, mret, M_ret;
    destruct (m s) as [[v|err] s1]; try reflexivity.
  - destruct v as [|x|t|b|d]; cbn [is_MISSING]; try reflexivity.
    + destruct (ToBoolean (VNumber x)); reflexivity.
    + destruct (ToBoolean (VText t)); reflexivity.
    + destruct b; reflexivity.
  - destruct (is_MISSING v) eqn:Hv; [reflexivity|].
    destruct (String.eqb (typeof (VDatetime (new_Date v))) "object" &&
              String.eqb (Date_toString (new_Date v)) "Invalid Date") eqn:Hd;
      [reflexivity|].
    cbn [is_MISSING new_Date]. destruct (new_Date v) as [tv]. cbn [DateValue].
    rewrite Hd. reflexivity.
  - destruct v; try reflexivity.
    destruct (Number.isNaN (parseFloat s0)); reflexivity.
  - destruct v; reflexivity.
Qed.

(** Double logical negation is conversion to logical. *)
Theorem not_not_is_toLogical :
  forall (e : Expr) row i s,
    run (ExprUnary ExprNot (ExprUnary ExprNot e)) row i s =
    run (ExprUnary ExprToLogical e) row i s.
Proof.
  intros e row i s.
  cbn [run run_unary]. unfold mbind, M_bind, mret, M_ret.
  destruct (run e row i s) as [[v|err] s1]; [|reflexivity].
  destruct v as [|x|t|b|d]; cbn [is_MISSING]; try reflexivity;
    [destruct (ToBoolean (VNumber x)) | destruct (ToBoolean (VText t)) | destruct b];
    reflexivity.
Qed.

Lemma stateless_ret {A} (a : A) : stateless (mret a).
Proof. exists (Return a). reflexivity. Qed.

Lemma stateless_throw {A} (e : exn) : stateless (mthrow (M := M) (A := A) e).
Proof. exists (Throw e). reflexivity. Qed.

Lemma stateless_check (condition : bool) (message : string) :
  stateless (check (T := M) condition message).
Proof. destruct condition; [apply stateless_ret | apply stateless_throw]. Qed.

Lemma stateless_bind {A B} (m : M A) (f : A -> M B) :
  stateless m -> (forall a, stateless (f a)) -> stateless (m ≫= f).
Proof.
  intros [[a|e] Hm] Hf.
  - destruct (Hf a) as [o Ho]. exists o. intros s.
    unfold mbind, M_bind. rewrite Hm. apply Ho.
  - exists (Throw e). intros s. unfold mbind, M_bind. rewrite Hm. reflexivity.
Qed.

Ltac stateless_tac :=
  repeat first
    [ assumption
    | apply stateless_ret
    | apply stateless_throw
    | apply stateless_check
    | apply stateless_bind; [|intros ?]
    | match goal with
      | |- stateless (if ?b then _ else _) => destruct b
      | |- stateless (match ?x with _ => _ end) => destruct x
      end ].

Lemma run_unary_stateless (c : unary) (arg : M Value) :
  stateless arg -> stateless (run_unary c arg).
Proof.
  intros Harg.
  destruct c as [[]|[]|[]|[]]; cbn [run_unary];
    unfold typeCheck, dateValue, checkNumber, call; stateless_tac.
Qed.

Lemma run_binary_stateless (c : binary) (left right : M Value) :
  stateless left -> stateless right -> stateless (run_binary c left right).
Proof.
  intros Hl Hr.
  destruct c as [c|c|[]]; cbn [run_binary];
    unfold run_arithmetic, comparison, checkNumber, checkTypeEqual; stateless_tac.
Qed.

(** A tree without random nodes never draws a variate: its outcome does
    not depend on the generator, which it leaves as it found it. *)
Theorem random_free_is_stateless :
  forall (e : Expr) row i, random_free e = true -> stateless (run e row i).
Proof.
  intros e row i.
  induction e as [c value| | | | |c arg IH|c l IHl r IHr|l IHl m IHm r IHr];
    cbn [random_free]; intros Hfree; try discriminate Hfree.
  - destruct c; cbn [run]; stateless_tac.
  - cbn [run]. stateless_tac.
  - cbn [run]. apply run_unary_stateless, IH, Hfree.
  - apply andb_prop in Hfree as [Hl Hr].
    cbn [run]. apply run_binary_stateless; auto.
  - apply andb_prop in Hfree as [Hlm Hr]. apply andb_prop in Hlm as [Hl Hm].
    cbn [run]. specialize (IHl Hl). specialize (IHm Hm). specialize (IHr Hr).
    stateless_tac.
Qed.

Lemma agree_refl {A} (m : M A) : agree m m.
Proof. intros s. reflexivity. Qed.

Lemma agree_bind {A B} (m1 m2 : M A) (f1 f2 : A -> M B) :
  agree m1 m2 -> (forall a, agree (f1 a) (f2 a)) -> agree (m1 ≫= f1) (m2 ≫= f2).
Proof.
  intros Hm Hf s. unfold mbind, M_bind. rewrite (Hm s).
  destruct (m2 s) as [[a|e] s1]; [apply Hf | reflexivity].
Qed.

Ltac agree_tac :=
  repeat first
    [ assumption
    | apply agree_refl
    | apply agree_bind; [|intros ?]
    | match goal with
      | |- agree (if ?b then _ else _) (if ?b then _ else _) => destruct b
      end ].

Lemma run_unary_agree (c : unary) (arg1 arg2 : M Value) :
  agree arg1 arg2 -> agree (run_unary c arg1) (run_unary c arg2).
Proof.
  intros Harg.
  destruct c as [[]|[]|[]|[]]; cbn [run_unary]; unfold typeCheck, dateValue; agree_tac.
Qed.

Lemma run_binary_agree (c : binary) (l1 l2 r1 r2 : M Value) :
  agree l1 l2 -> agree r1 r2 -> agree (run_binary c l1 r1) (run_binary c l2 r2).
Proof.
  intros Hl Hr.
  destruct c as [c|c|[]]; cbn [run_binary]; unfold run_arithmetic, comparison; agree_tac.
Qed.

(** Evaluation reads only the columns the tree names, and the row index
    only through a row-number node: on two rows that agree on the columns
    of the tree, at the same index or without a row-number node, the tree
    evaluates alike. *)
Theorem run_reads_named_columns :
  forall (e : Expr) (row1 row2 : Row) (i1 i2 : number) s,
    Forall (fun name => row1 !! name = row2 !! name) (columns e) ->
    rownum_free e = true \/ i1 = i2 ->
    run e row1 i1 s = run e row2 i2 s.
Proof.
  intros e row1 row2 i1 i2 s Hcolumns Hindex. revert s.
  change (agree (run e row1 i1) (run e row2 i2)).
  induction e as [c value| | | | |c arg IH|c l IHl r IHr|l IHl m IHm r IHr];
    cbn [columns rownum_free] in Hcolumns, Hindex.
  - destruct c; cbn [run]; try apply agree_refl.
    apply Forall_cons in Hcolumns as [-> _]. apply agree_refl.
  - destruct Hindex as [Hfree | ->]; [discriminate | apply agree_refl].
  - apply agree_refl.
  - apply agree_refl.
  - apply agree_refl.
  - cbn [run]. apply run_unary_agree, IH; assumption.
  - apply Forall_app in Hcolumns as [Hl Hr].
    cbn [run]. apply run_binary_agree; [apply IHl | apply IHr]; try assumption;
      (destruct Hindex as [Hfree | ?]; [left | right; assumption]);
      apply andb_prop in Hfree; tauto.
  - apply Forall_app in Hcolumns as [Hl Hmr]. apply Forall_app in Hmr as [Hm Hr].
    assert (Hil : rownum_free l = true \/ i1 = i2).
    { destruct Hindex as [Hfree | ?]; [left | right; assumption].
      apply andb_prop in Hfree as [Hfree _]. apply andb_prop in Hfree; tauto. }
    assert (Him : rownum_free m = true \/ i1 = i2).
    { destruct Hindex as [Hfree | ?]; [left | right; assumption].
      apply andb_prop in Hfree as [Hfree _]. apply andb_prop in Hfree; tauto. }
    assert (Hir : rownum_free r = true \/ i1 = i2).
    { destruct Hindex as [Hfree | ?]; [left | right; assumption].
      apply andb_prop in Hfree; tauto. }
    specialize (IHl Hl Hil). specialize (IHm Hm Him). specialize (IHr Hr Hir).
    cbn [run]. agree_tac.
Qed.

(** A column node returns the value the row holds under its name.  When
    the row holds nothing under the name, and the name is none of those a
    row inherits from [Object.prototype], it throws; the message reads the
    unset field [name].  Of a row extended with a value under its name it
    returns that value, and a value under another name changes nothing. *)
Theorem column_lookup :
  (forall (name : string) row i s v,
      row !! name = Some v ->
      run (column name) row i s = (Return v, s)) /\
  (forall (name : string) row i s,
      row !! name = None ->
      inherited name = false ->
      run (column name) row i s = (Throw (Error "undefined not in row"), s)) /\
  (forall (name : string) row i s v,
      run (column name) (<[name := v]> row) i s = (Return v, s)) /\
  (forall (name other : string) row i s v,
      name <> other ->
      run (column other) (<[name := v]> row) i s = run (column other) row i s).
Proof.
  repeat split.
  - intros name row i s v Hlookup. cbn [run column ToString]. rewrite Hlookup. reflexivity.
  - intros name row i s Hlookup _. cbn [run column ToString]. rewrite Hlookup. reflexivity.
  - intros name row i s v. cbn [run column ToString].
    rewrite lookup_insert_eq. reflexivity.
  - intros name other row i s v Hne. cbn [run column ToString].
    rewrite lookup_insert_ne by assumption. reflexivity.
Qed.

(** The date-field extractions of a valid date return whole numbers in the
    calendar's ranges: month 1 to 12, day 1 to 31, weekday 0 to 6, hours 0
    to 23, minutes and seconds 0 to 59. *)
Theorem datetime_field_ranges :
  forall (c : datetime) (arg : Expr) row i s (tv : Z) s1,
    run arg row i s = (Return (VDatetime (mkDate (Some tv))), s1) ->
    exists n : Z,
      field_range c n /\
      run (ExprUnary c arg) row i s = (Return (VNumber (Number.of_Z n)), s1).
Proof.
  intros c arg row i s tv s1 Harg.
  pose proof (field_ranges (LocalTime tv)) as (Hweekday & Hhours & Hminutes & Hseconds).
  pose proof (DateFromTime_range (LocalTime tv)) as Hdate.
  pose proof (MonthFromTime_range (LocalTime tv)) as Hmonth.
  destruct c;
    [ exists (YearFromTime (LocalTime tv))
    | exists (MonthFromTime (LocalTime tv) + 1)
    | exists (DateFromTime (LocalTime tv))
    | exists (WeekDay (LocalTime tv))
    | exists (HourFromTime (LocalTime tv))
    | exists (MinFromTime (LocalTime tv))
    | exists (SecFromTime (LocalTime tv)) ];
    (split; [cbn [field_range]; first [exact I | lia] |]);
    unfold_run; bind_with Harg; try reflexivity.
  cbn [is_MISSING instanceof_Date]. rewrite check_true. cbn [call].
  unfold getMonth, localField. cbn [DateValue].
  rewrite <- (succ_of_month _ Hmonth). reflexivity.
Qed.

(** [notEqual] is the complement of [equal]: where [equal] returns a
    logical, [notEqual] returns its negation, and where [equal] returns
    [MISSING], so does [notEqual]. *)
Theorem notEqual_complements_equal :
  forall (l r : Expr) row i s v s',
    run (ExprBinary ExprEqual l r) row i s = (Return v, s') ->
    run (ExprBinary ExprNotEqual l r) row i s =
      (Return (match v with VLogical b => VLogical (negb b) | _ => v end), s').
Proof.
  intros l r row i s v s'. unfold_run. intros Hrun.
  apply bind_Return_inv in Hrun as (vl & s1 & Hl & Hrun).
  apply bind_Return_inv in Hrun as (vr & s2 & Hr & Hrun).
  apply check_Return_inv in Hrun as [Htypes Hrun].
  apply ret_Return_inv in Hrun as [<- <-].
  bind_with Hl. bind_with Hr. unfold checkTypeEqual in *. rewrite Htypes, check_true.
  destruct (is_MISSING vl || is_MISSING vr); reflexivity.
Qed.

(** Dividing, or taking the remainder, by zero (of either sign) gives
    [MISSING], whatever the dividend. *)
Theorem zero_divisor_is_missing :
  forall (c : arithmetic) (l r : Expr) row i s (a : number) s1 (b : number) s2,
    c = ExprDivide \/ c = ExprRemainder ->
    run l row i s = (Return (VNumber a), s1) ->
    run r row i s1 = (Return (VNumber b), s2) ->
    is_zero b = true ->
    run (ExprBinary c l r) row i s = (Return MISSING, s2).
Proof.
  intros c l r row i s a s1 b s2 Hc Hl Hr Hb.
  unfold_run. bind_with Hl. unfold checkNumber. rewrite check_true.
  bind_with Hr. rewrite check_true.
  cbn [is_MISSING orb]. rewrite arithmetic_func_number, safeValue_number.
  destruct Hc as [-> | ->]; cbn [number_func].
  - rewrite (div_by_zero a b Hb). reflexivity.
  - rewrite (remainder_by_zero a b Hb). reflexivity.
Qed.

Lemma compare_numbers (c : compare) (l r : Expr) row i s (a : number) s1 (b : number) s2 :
  run l row i s = (Return (VNumber a), s1) ->
  run r row i s1 = (Return (VNumber b), s2) ->
  run (ExprBinary c l r) row i s =
    (Return (VLogical (compare_func c (VNumber a) (VNumber b))), s2).
Proof.
  intros Hl Hr. unfold_run. bind_with Hl. bind_with Hr. reflexivity.
Qed.

(** The six comparisons on two numbers.  Exactly one of less, equal and
    greater holds of two numbers that are not [NaN], and lessEqual and
    greaterEqual are the disjunctions; with a [NaN] operand all of them are
    false but notEqual, which is always the negation of equal. *)
Theorem number_comparisons :
  forall (l r : Expr) row i s (a : number) s1 (b : number) s2,
    run l row i s = (Return (VNumber a), s1) ->
    run r row i s1 = (Return (VNumber b), s2) ->
    exists lt eq gt : bool,
      run (ExprBinary ExprLess l r) row i s = (Return (VLogical lt), s2) /\
      run (ExprBinary ExprEqual l r) row i s = (Return (VLogical eq), s2) /\
      run (ExprBinary ExprGreater l r) row i s = (Return (VLogical gt), s2) /\
      run (ExprBinary ExprNotEqual l r) row i s = (Return (VLogical (negb eq)), s2) /\
      (Number.isNaN a = false -> Number.isNaN b = false ->
       (lt = true /\ eq = false /\ gt = false \/
        lt = false /\ eq = true /\ gt = false \/
        lt = false /\ eq = false /\ gt = true) /\
       run (ExprBinary ExprLessEqual l r) row i s = (Return (VLogical (lt || eq)), s2) /\
       run (ExprBinary ExprGreaterEqual l r) row i s = (Return (VLogical (gt || eq)), s2)) /\
      (Number.isNaN a = true \/ Number.isNaN b = true ->
       lt = false /\ eq = false /\ gt = false /\
       run (ExprBinary ExprLessEqual l r) row i s = (Return (VLogical false), s2) /\
       run (ExprBinary ExprGreaterEqual l r) row i s = (Return (VLogical false), s2)).
Proof.
  intros l r row i s a s1 b s2 Hl Hr.
  exists (compare_func ExprLess (VNumber a) (VNumber b)),
         (compare_func ExprEqual (VNumber a) (VNumber b)),
         (compare_func ExprGreater (VNumber a) (VNumber b)).
  rewrite !(compare_numbers _ _ _ _ _ _ _ _ _ _ Hl Hr).
  repeat (split; [reflexivity|]).
  cbn [compare_func util_equal].
  unfold js_less, js_greater, js_lessEqual, js_greaterEqual, IsLessThan, Number.lessThan,
    Number.isNaN.
  cbn [ToNumber]. split.
  - intros Ha Hb. rewrite Ha, Hb, !(orb_false_l).
    destruct (number_trichotomy a b Ha Hb) as [(-> & -> & ->) | [(-> & -> & ->) | (-> & -> & ->)]];
      repeat split; auto.
  - intros Hnan.
    assert (Hab : is_nan a || is_nan b = true) by (destruct Hnan as [-> | ->]; auto using orb_true_r).
    assert (Hba : is_nan b || is_nan a = true) by (rewrite orb_comm; exact Hab).
    rewrite Hab, Hba, (eqb_nan a b Hnan). repeat split.
Qed.

(** The constructors of the leaves accept exactly the values of their
    type: a column name must be a non-empty string, and a literal must be
    [MISSING] or a value of the class's type; otherwise they throw and
    build no node.  A literal evaluates to its value, on any row and
    without touching the generator. *)
Theorem literal_constructors :
  forall (c : nullary) (value : Value),
    (match c with
     | ExprColumn => exists name : string, value = VText name /\ name <> ""
     | _ => value = MISSING \/ has_type (literal_type c) value = true
     end ->
     new_literal c value = Return (ExprNullaryBase c value)) /\
    (forall e : Expr, new_literal c value = Return e ->
       e = ExprNullaryBase c value /\
       match c with
       | ExprColumn => exists name : string, value = VText name /\ name <> ""
       | _ => value = MISSING \/ has_type (literal_type c) value = true
       end) /\
    (c <> ExprColumn ->
     forall row i s, run (ExprNullaryBase c value) row i s = (Return value, s)).
Proof.
  intros c value. split; [|split].
  - destruct c; [intros (name & -> & Hname) | intros [-> | Htype] ..];
      try reflexivity; try (destruct value; try discriminate Htype; reflexivity).
    destruct name; [congruence | reflexivity].
  - intros e Hnew.
    destruct c; apply check_outcome_inv in Hnew as [Hcheck <-];
      (split; [reflexivity|]);
      destruct value as [|x|t|b|d]; try discriminate Hcheck; auto;
      try (rewrite andb_false_r in Hcheck; discriminate Hcheck).
    destruct t; [discriminate Hcheck|]. eexists. split; [reflexivity | discriminate].
  - intros Hc row i s. destruct c; try congruence; reflexivity.
Qed.


End Coverage.

(** ** The statements at concrete rows, on the reference host *)

#[local] Existing Instance Reference.host.

(** C4 at a division by zero, a finite quotient and a negation. *)
Lemma arithmetic_result_is_safe_witness :
  run (ExprBinary ExprDivide (column "red") (column "green"))
      {[ "red" := VNumber 255; "green" := VNumber 0 ]} 0 no_variates =
    (Return MISSING, no_variates) /\
  run (ExprBinary ExprDivide (column "red") (literal ExprNumber (VNumber 2)))
      {[ "red" := VNumber 255 ]} 0 no_variates =
    (Return (VNumber 127.5), no_variates) /\
  run (ExprUnary ExprNegate (literal ExprNumber (VNumber 3))) ∅ 0 no_variates =
    (Return (VNumber (-3)), no_variates).
Proof.
  split; [|split].
  - apply (proj1 arithmetic_result_is_safe ExprDivide _ _ _ _ _
             255%float no_variates 0%float no_variates); reflexivity.
  - apply (proj1 arithmetic_result_is_safe ExprDivide _ _ _ _ _
             255%float no_variates 2%float no_variates); reflexivity.
  - apply (proj2 arithmetic_result_is_safe _ _ _ _ 3%float no_variates); reflexivity.
Defined.

(** C3, as amended, at a Number column added to a missing literal. *)
Lemma arithmetic_missing_witness :
  run (ExprBinary ExprAdd (column "first") (literal ExprNumber MISSING))
      {[ "first" := VNumber 1 ]} 0 no_variates = (Return MISSING, no_variates).
Proof.
  apply (arithmetic_missing ExprAdd _ _ _ _ _ (VNumber 1) no_variates MISSING no_variates).
  - reflexivity.
  - reflexivity.
  - right. exists 1%float. reflexivity.
  - left. reflexivity.
  - right. reflexivity.
Defined.

(** C3, as stated, fails: the left operand evaluates to [MISSING], the right
    one to a text, and the sum throws instead of evaluating to [MISSING]. *)
Lemma arithmetic_missing_counterexample :
  new_ExprNumber MISSING = Return (literal ExprNumber MISSING) /\
  new_ExprText (VText "a") = Return (literal ExprText (VText "a")) /\
  run (literal ExprNumber MISSING) ∅ 0 no_variates = (Return MISSING, no_variates) /\
  run (literal ExprText (VText "a")) ∅ 0 no_variates = (Return (VText "a"), no_variates) /\
  run (ExprBinary ExprAdd (literal ExprNumber MISSING) (literal ExprText (VText "a")))
      ∅ 0 no_variates =
    (Throw (Error "Require number for add"), no_variates).
Proof. repeat split. Qed.

(** C5 where the right operand would throw, and where it would draw a
    variate. *)
Lemma logical_short_circuit_witness :
  run (ExprBinary ExprAnd (literal ExprNumber MISSING) (column "absent")) ∅ 0 no_variates =
    (Return MISSING, no_variates) /\
  run (ExprBinary ExprOr (literal ExprText (VText "yes")) (ExprUniform 0 1))
      ∅ 0 (Reference.recorded [0.5%float]) =
    (Return (VText "yes"), Reference.recorded [0.5%float]).
Proof.
  split.
  - refine (proj1 (proj2 logical_short_circuit _ _ _ _ _ MISSING no_variates _)).
    reflexivity.
  - refine (proj2 (proj2 logical_short_circuit _ _ _ _ _ (VText "yes")
                     (Reference.recorded [0.5%float]) _)).
    reflexivity.
Defined.

(** C6 at a missing literal against a text, and a Number against a text. *)
Lemma comparison_missing_then_types_witness :
  run (ExprBinary ExprEqual (literal ExprNumber MISSING) (literal ExprText (VText "a")))
      ∅ 0 no_variates = (Return MISSING, no_variates) /\
  run (ExprBinary ExprLess (literal ExprNumber (VNumber 1)) (literal ExprText (VText "a")))
      ∅ 0 no_variates = (Throw (Error "Require equal types for less"), no_variates).
Proof.
  split.
  - refine (proj1 (comparison_missing_then_types ExprEqual _ _ _ _ _
                     MISSING no_variates (VText "a") no_variates _ _) _).
    + reflexivity.
    + reflexivity.
    + left. reflexivity.
  - refine (proj2 (comparison_missing_then_types ExprLess _ _ _ _ _
                     (VNumber 1) no_variates (VText "a") no_variates _ _) _ _ _).
    + reflexivity.
    + reflexivity.
    + discriminate.
    + discriminate.
    + discriminate.
Defined.

(** C7 at the text ["abc"]. *)
Lemma conversion_failures_are_missing_witness :
  run (ExprUnary ExprToDatetime (literal ExprText (VText "abc"))) ∅ 0 no_variates =
    (Return MISSING, no_variates) /\
  run (ExprUnary ExprToNumber (literal ExprText (VText "abc"))) ∅ 0 no_variates =
    (Return MISSING, no_variates) /\
  exists v' : Value,
    run (ExprUnary ExprToString (literal ExprText (VText "abc"))) ∅ 0 no_variates =
      (Return v', no_variates).
Proof.
  split; [|split].
  - apply (proj1 conversion_failures_are_missing _ _ _ _ (VText "abc") no_variates);
      reflexivity.
  - apply (proj1 (proj2 conversion_failures_are_missing) _ _ _ _ "abc" no_variates);
      reflexivity.
  - apply (proj2 (proj2 conversion_failures_are_missing) ExprToString _ _ _ _
             (VText "abc") no_variates); reflexivity.
Defined.

(** C8 at a column that holds [MISSING]. *)
Lemma type_predicates_missing_witness :
  run (ExprUnary ExprIsNumber (column "number"))
      {[ "number" := MISSING ]} 0 no_variates = (Return MISSING, no_variates) /\
  exists b : bool,
    run (ExprUnary ExprIsMissing (column "number"))
        {[ "number" := MISSING ]} 0 no_variates = (Return (VLogical b), no_variates) /\
    (b = true <-> MISSING = MISSING).
Proof.
  split.
  - refine (proj1 (type_predicates_missing _ _ _ _ MISSING no_variates _)
              _ ExprIsNumber _).
    + reflexivity.
    + reflexivity.
    + discriminate.
  - refine (proj2 (type_predicates_missing _ _ _ _ MISSING no_variates _)).
    reflexivity.
Defined.

(** C9, as amended, at a missing literal, a text, and the months of
    3 February 1980, of the last millisecond of 1999, of the first of 2000,
    and of 29 February and 1 March 2000. *)
Lemma datetime_fields_witness :
  run (ExprUnary ExprToYear (literal ExprDatetime MISSING)) ∅ 0 no_variates =
    (Return MISSING, no_variates) /\
  run (ExprUnary ExprToYear (literal ExprText (VText "1980-02-03"))) ∅ 0 no_variates =
    (Throw (Error "Require date for toYear"), no_variates) /\
  run (ExprUnary ExprToMonth
         (literal ExprDatetime (VDatetime (mkDate (Some 318384000000)))))
      ∅ 0 no_variates = (Return (VNumber 2), no_variates) /\
  run (ExprUnary ExprToMonth
         (literal ExprDatetime (VDatetime (mkDate (Some 946684799999)))))
      ∅ 0 no_variates = (Return (VNumber 12), no_variates) /\
  run (ExprUnary ExprToMonth
         (literal ExprDatetime (VDatetime (mkDate (Some 946684800000)))))
      ∅ 0 no_variates = (Return (VNumber 1), no_variates) /\
  run (ExprUnary ExprToMonth
         (literal ExprDatetime (VDatetime (mkDate (Some 951782400000)))))
      ∅ 0 no_variates = (Return (VNumber 2), no_variates) /\
  run (ExprUnary ExprToMonth
         (literal ExprDatetime (VDatetime (mkDate (Some 951868800000)))))
      ∅ 0 no_variates = (Return (VNumber 3), no_variates).
Proof.
  split; [|split; [|split; [|split; [|split; [|split]]]]].
  - refine (proj1 (datetime_fields ExprToYear _ _ _ _ MISSING no_variates _) _).
    + reflexivity.
    + reflexivity.
  - refine (proj1 (proj2 (datetime_fields ExprToYear _ _ _ _ (VText "1980-02-03")
                            no_variates _)) _ _).
    + reflexivity.
    + discriminate.
    + reflexivity.
  - refine (proj1 (proj2 (proj2 (datetime_fields ExprToMonth _ _ _ _
                                   (VDatetime (mkDate (Some 318384000000)))
                                   no_variates _)) 318384000000 _)).
    + reflexivity.
    + reflexivity.
  - refine (proj1 (proj2 (proj2 (datetime_fields ExprToMonth _ _ _ _
                                   (VDatetime (mkDate (Some 946684799999)))
                                   no_variates _)) 946684799999 _)).
    + reflexivity.
    + reflexivity.
  - refine (proj1 (proj2 (proj2 (datetime_fields ExprToMonth _ _ _ _
                                   (VDatetime (mkDate (Some 946684800000)))
                                   no_variates _)) 946684800000 _)).
    + reflexivity.
    + reflexivity.
  - refine (proj1 (proj2 (proj2 (datetime_fields ExprToMonth _ _ _ _
                                   (VDatetime (mkDate (Some 951782400000)))
                                   no_variates _)) 951782400000 _)).
    + reflexivity.
    + reflexivity.
  - refine (proj1 (proj2 (proj2 (datetime_fields ExprToMonth _ _ _ _
                                   (VDatetime (mkDate (Some 951868800000)))
                                   no_variates _)) 951868800000 _)).
    + reflexivity.
    + reflexivity.
Defined.

(** C9, as stated, fails on a [Date] that is an "Invalid Date": the
    constructor of the datetime literal accepts it, and its month is NaN. *)
Lemma toMonth_invalid_date_counterexample :
  new_ExprDatetime (VDatetime InvalidDate) =
    Return (literal ExprDatetime (VDatetime InvalidDate)) /\
  run (ExprUnary ExprToMonth (literal ExprDatetime (VDatetime InvalidDate)))
      ∅ 0 no_variates = (Return (VNumber NaN), no_variates) /\
  ~ (exists m : Z, 1 <= m <= 12 /\ NaN = Number.of_Z m).
Proof.
  split; [reflexivity|]. split; [reflexivity|].
  intros (m & Hm & Heq).
  assert (Hfinite : is_nan (Number.of_Z m) = false).
  { assert (Hcases : m = 1 \/ m = 2 \/ m = 3 \/ m = 4 \/ m = 5 \/ m = 6 \/ m = 7 \/
                     m = 8 \/ m = 9 \/ m = 10 \/ m = 11 \/ m = 12) by lia.
    repeat destruct Hcases as [-> | Hcases]; try subst m; reflexivity. }
  rewrite <- Heq in Hfinite. discriminate Hfinite.
Qed.

(** C10 where the branches would draw a variate or throw. *)
Lemma ifElse_selects_witness :
  run (ExprIfElse (literal ExprLogical MISSING) (ExprUniform 0 1) (column "absent"))
      ∅ 0 (Reference.recorded [0.5%float]) =
    (Return MISSING, Reference.recorded [0.5%float]) /\
  run (ExprIfElse (literal ExprLogical (VLogical true))
                  (literal ExprNumber (VNumber 1)) (column "absent"))
      ∅ 0 no_variates = (Return (VNumber 1), no_variates).
Proof.
  split.
  - refine (ifElse_selects _ _ _ _ _ _ MISSING (Reference.recorded [0.5%float]) _).
    reflexivity.
  - refine (ifElse_selects _ _ _ _ _ _ (VLogical true) no_variates _).
    reflexivity.
Defined.

(** ** The tests of [src/test/test_js_exec.js], replayed

    Each evaluation below is one the test-suite makes through the block
    editor; the expected values are the ones the tests assert. *)

(** "does division correctly even with zeroes". *)
Example test_division_with_zeroes :
  run (ExprBinary ExprDivide (column "red") (column "green"))
      {[ "red" := VNumber 255; "green" := VNumber 0 ]} 0 no_variates =
    (Return MISSING, no_variates) /\
  run (ExprBinary ExprDivide (column "red") (column "green"))
      {[ "red" := VNumber 255; "green" := VNumber 128 ]} 0 no_variates =
    (Return (VNumber (255 / 128)), no_variates).
Proof. split; reflexivity. Qed.

(** "does modulo correctly (#131)". *)
Example test_modulo :
  run (ExprBinary ExprRemainder (column "red") (column "green"))
      {[ "red" := VNumber 255; "green" := VNumber 0 ]} 0 no_variates =
    (Return MISSING, no_variates) /\
  run (ExprBinary ExprRemainder (column "red") (column "green"))
      {[ "red" := VNumber 255; "green" := VNumber 128 ]} 0 no_variates =
    (Return (VNumber 127), no_variates).
Proof. split; reflexivity. Qed.

(** "calculates exponents correctly": an overflowing power is missing. *)
Example test_exponents :
  run (ExprBinary ExprPower (column "red") (column "green"))
      {[ "red" := VNumber 255; "green" := VNumber 255 ]} 0 no_variates =
    (Return MISSING, no_variates) /\
  run (ExprBinary ExprPower (column "red") (column "green"))
      {[ "red" := VNumber 255; "green" := VNumber 0 ]} 0 no_variates =
    (Return (VNumber 1), no_variates).
Proof. split; vm_compute; reflexivity. Qed.

(** "handles missing values in binary arithmetic correctly". *)
Example test_missing_in_binary_arithmetic (c : arithmetic) :
  run (ExprBinary c (column "first") (literal ExprNumber MISSING))
      {[ "first" := VNumber 1 ]} 0 no_variates =
    (Return MISSING, no_variates).
Proof. destruct c; reflexivity. Qed.

(** "handles missing values for type conversion correctly". *)
Example test_missing_in_conversions (c : convert) :
  run (ExprUnary c (column "missing"))
      {[ "missing" := MISSING ]} 0 no_variates =
    (Return MISSING, no_variates).
Proof. destruct c; reflexivity. Qed.

(** "handles conversion to number from Boolean and string correctly". *)
Example test_conversion_to_number :
  run (ExprUnary ExprToNumber (column "bool_false"))
      {[ "bool_false" := VLogical false ]} 0 no_variates =
    (Return (VNumber 0), no_variates) /\
  run (ExprUnary ExprToNumber (column "bool_true"))
      {[ "bool_true" := VLogical true ]} 0 no_variates =
    (Return (VNumber 1), no_variates) /\
  run (ExprUnary ExprToNumber (column "str"))
      {[ "str" := VText "123.45" ]} 0 no_variates =
    (Return (VNumber 0x1.edccccccccccdp+6), no_variates).
Proof. repeat split; vm_compute; reflexivity. Qed.

(** "converts things to strings correctly". *)
Example test_conversion_to_string :
  run (ExprUnary ExprToString (column "bool_false"))
      {[ "bool_false" := VLogical false ]} 0 no_variates =
    (Return (VText "false"), no_variates) /\
  run (ExprUnary ExprToString (column "bool_true"))
      {[ "bool_true" := VLogical true ]} 0 no_variates =
    (Return (VText "true"), no_variates) /\
  run (ExprUnary ExprToString (column "num"))
      {[ "num" := VNumber (-999) ]} 0 no_variates =
    (Return (VText "-999"), no_variates).
Proof. repeat split; vm_compute; reflexivity. Qed.

(** "does logical operations correctly": [and] and [or] agree with [&&]
    and [||] on every pair of the tested operands. *)
Example test_logical_operations (left right : Value) :
  In left tested_logicals -> In right tested_logicals ->
  run (ExprBinary ExprAnd (column "left") (column "right"))
      {[ "left" := left; "right" := right ]} 0 no_variates =
    (Return (js_and left right), no_variates) /\
  run (ExprBinary ExprOr (column "left") (column "right"))
      {[ "left" := left; "right" := right ]} 0 no_variates =
    (Return (js_or left right), no_variates).
Proof.
  unfold tested_logicals. simpl.
  intros [<- | [<- | [<- | []]]] [<- | [<- | [<- | []]]]; split; reflexivity.
Qed.

(** "filters strings correctly (#143)". *)
Example test_string_equality :
  run (ExprBinary ExprEqual (column "Species") (literal ExprText (VText "setosa")))
      {[ "Species" := VText "setosa" ]} 0 no_variates =
    (Return (VLogical true), no_variates) /\
  run (ExprBinary ExprEqual (column "Species") (literal ExprText (VText "setosa")))
      {[ "Species" := VText "virginica" ]} 0 no_variates =
    (Return (VLogical false), no_variates).
Proof. split; reflexivity. Qed.

(** "handles missing values ..." for the two negations. *)
Example test_missing_in_negations (c : negation) :
  run (ExprUnary c (literal ExprNumber MISSING)) ∅ 0 no_variates =
    (Return MISSING, no_variates).
Proof. destruct c; reflexivity. Qed.

(** "checks types correctly": each predicate holds of the value of its own
    type and of no other. *)
Example test_type_checks :
  let values := [VLogical true; VDatetime (mkDate (Some 318384000000));
                 VNumber 0x1.c8b3333333333p+8; VText "text"] in
  let checks := [ExprIsLogical; ExprIsDatetime; ExprIsNumber; ExprIsText] in
  map (fun value =>
         map (fun c : typecheck =>
                fst (run (ExprUnary c (column "temp")) {[ "temp" := value ]} 0 no_variates))
             checks)
      values =
  [ [Return (VLogical true); Return (VLogical false); Return (VLogical false);
     Return (VLogical false)];
    [Return (VLogical false); Return (VLogical true); Return (VLogical false);
     Return (VLogical false)];
    [Return (VLogical false); Return (VLogical false); Return (VLogical true);
     Return (VLogical false)];
    [Return (VLogical false); Return (VLogical false); Return (VLogical false);
     Return (VLogical true)] ].
Proof. reflexivity. Qed.

(** ** The further properties at concrete rows *)

Lemma unary_missing_propagates_witness :
  run (ExprUnary ExprToString (literal ExprText MISSING)) ∅ 0 no_variates =
    (Return MISSING, no_variates).
Proof.
  apply unary_missing_propagates; [discriminate | reflexivity].
Defined.

Lemma errors_propagate_witness :
  run (ExprUnary ExprNot (column "absent")) ∅ 0 no_variates =
    (Throw (Error "undefined not in row"), no_variates) /\
  run (ExprBinary ExprAnd (column "absent") (literal ExprLogical (VLogical true)))
      ∅ 0 no_variates = (Throw (Error "undefined not in row"), no_variates) /\
  run (ExprIfElse (column "absent") ExprRowNum ExprRowNum) ∅ 0 no_variates =
    (Throw (Error "undefined not in row"), no_variates) /\
  run (ExprBinary ExprLess (literal ExprNumber (VNumber 1)) (column "absent"))
      ∅ 0 no_variates = (Throw (Error "undefined not in row"), no_variates) /\
  run (ExprBinary ExprAdd (literal ExprNumber (VNumber 1)) (column "absent"))
      ∅ 0 no_variates = (Throw (Error "undefined not in row"), no_variates).
Proof.
  destruct errors_propagate as (Hunary & Hbinary & HifElse & Hcompare & Harithmetic).
  split; [|split; [|split; [|split]]].
  - apply Hunary. reflexivity.
  - apply Hbinary. reflexivity.
  - apply HifElse. reflexivity.
  - apply (Hcompare ExprLess _ _ _ _ _ (VNumber 1) no_variates); reflexivity.
  - apply (Harithmetic ExprAdd _ _ _ _ _ (VNumber 1) no_variates); reflexivity.
Defined.

Lemma arithmetic_rejects_non_numbers_witness :
  run (ExprBinary ExprAdd (literal ExprText (VText "a")) (ExprUniform 0 1))
      ∅ 0 (Reference.recorded [0.5%float]) =
    (Throw (Error "Require number for add"), Reference.recorded [0.5%float]) /\
  run (ExprBinary ExprMultiply (literal ExprNumber (VNumber 2))
                               (literal ExprLogical (VLogical true)))
      ∅ 0 no_variates = (Throw (Error "Require number for multiply"), no_variates) /\
  run (ExprUnary ExprNegate (literal ExprText (VText "a"))) ∅ 0 no_variates =
    (Throw (Error "Require number for undefined"), no_variates).
Proof.
  destruct arithmetic_rejects_non_numbers as (Hleft & Hright & Hnegate).
  split; [|split].
  - apply (Hleft ExprAdd _ _ _ _ _ (VText "a")); reflexivity.
  - apply (Hright ExprMultiply _ _ _ _ _ (VNumber 2) no_variates (VLogical true));
      reflexivity.
  - apply (Hnegate _ _ _ _ (VText "a")); reflexivity.
Defined.

Lemma arithmetic_yields_finite_witness :
  (VNumber 0.5 = MISSING \/
   exists x : number, VNumber 0.5 = VNumber x /\ is_finite x = true) /\
  (VNumber (-3) = MISSING \/
   exists x : number, VNumber (-3) = VNumber x /\ is_finite x = true).
Proof.
  split.
  - apply (proj1 arithmetic_yields_finite ExprDivide
             (literal ExprNumber (VNumber 1)) (literal ExprNumber (VNumber 2))
             ∅ 0%float no_variates (VNumber 0.5) no_variates).
    reflexivity.
  - apply (proj2 arithmetic_yields_finite (literal ExprNumber (VNumber 3))
             ∅ 0%float no_variates (VNumber (-3)) no_variates).
    reflexivity.
Defined.


Lemma conversions_yield_no_invalid_value_witness :
  (VDatetime (mkDate (Some 318384000000)) = MISSING \/
   exists tv : Z, VDatetime (mkDate (Some 318384000000)) = VDatetime (mkDate (Some tv))) /\
  (VNumber 12 = MISSING \/
   exists x : number, VNumber 12 = VNumber x /\ Number.isNaN x = false) /\
  run (ExprUnary ExprToNumber (literal ExprLogical (VLogical true))) ∅ 0 no_variates =
    (Return (VNumber 1), no_variates).
Proof.
  destruct conversions_yield_no_invalid_value as (Hdate & Htext & Hlogical).
  split; [|split].
  - apply (Hdate (literal ExprText (VText "1980-02-03")) ∅ 0%float no_variates _
             no_variates).
    vm_compute. reflexivity.
  - apply (Htext (literal ExprText (VText "12")) ∅ 0%float no_variates "12"
             no_variates _ no_variates).
    + reflexivity.
    + vm_compute. reflexivity.
  - apply (Hlogical _ _ _ _ true no_variates). reflexivity.
Defined.

Lemma random_free_is_stateless_witness :
  stateless (run (ExprUnary ExprNegate (column "x")) {[ "x" := VNumber 1 ]} 0).
Proof. apply random_free_is_stateless. reflexivity. Defined.

Lemma run_reads_named_columns_witness :
  run (ExprBinary ExprAdd (column "x") (literal ExprNumber (VNumber 1)))
      {[ "x" := VNumber 1; "y" := VNumber 2 ]} 0 no_variates =
  run (ExprBinary ExprAdd (column "x") (literal ExprNumber (VNumber 1)))
      {[ "x" := VNumber 1; "y" := VNumber 3 ]} 5 no_variates.
Proof.
  apply run_reads_named_columns.
  - repeat constructor.
  - left. reflexivity.
Defined.

Lemma column_lookup_witness :
  run (column "red") {[ "red" := VNumber 255 ]} 0 no_variates =
    (Return (VNumber 255), no_variates) /\
  run (column "green") {[ "red" := VNumber 255 ]} 0 no_variates =
    (Throw (Error "undefined not in row"), no_variates) /\
  run (column "red") (<[ "green" := VNumber 0 ]> {[ "red" := VNumber 255 ]}) 0 no_variates =
    run (column "red") {[ "red" := VNumber 255 ]} 0 no_variates.
Proof.
  destruct column_lookup as (Hpresent & Habsent & _ & Hother).
  split; [|split].
  - apply Hpresent. reflexivity.
  - apply Habsent; reflexivity.
  - apply Hother. discriminate.
Defined.

Lemma datetime_field_ranges_witness :
  exists n : Z,
    field_range ExprToWeekday n /\
    run (ExprUnary ExprToWeekday (literal ExprDatetime (VDatetime (mkDate (Some 0)))))
        ∅ 0 no_variates = (Return (VNumber (Number.of_Z n)), no_variates).
Proof.
  apply (datetime_field_ranges ExprToWeekday _ _ _ _ 0 no_variates). reflexivity.
Defined.

Lemma notEqual_complements_equal_witness :
  run (ExprBinary ExprNotEqual (literal ExprNumber (VNumber 1))
                               (literal ExprNumber (VNumber 1))) ∅ 0 no_variates =
    (Return (VLogical false), no_variates).
Proof.
  apply (notEqual_complements_equal _ _ _ _ _ (VLogical true) no_variates). reflexivity.
Defined.

Lemma zero_divisor_is_missing_witness :
  run (ExprBinary ExprRemainder (column "red") (column "green"))
      {[ "red" := VNumber 255; "green" := VNumber 0 ]} 0 no_variates =
    (Return MISSING, no_variates).
Proof.
  apply (zero_divisor_is_missing ExprRemainder _ _ _ _ _ 255%float no_variates
           0%float no_variates).
  - right. reflexivity.
  - reflexivity.
  - reflexivity.
  - reflexivity.
Defined.

Lemma number_comparisons_witness :
  exists lt eq gt : bool,
    run (ExprBinary ExprLess (literal ExprNumber (VNumber 1)) (literal ExprNumber (VNumber 2)))
        ∅ 0 no_variates = (Return (VLogical lt), no_variates) /\
    run (ExprBinary ExprEqual (literal ExprNumber (VNumber 1)) (literal ExprNumber (VNumber 2)))
        ∅ 0 no_variates = (Return (VLogical eq), no_variates) /\
    run (ExprBinary ExprGreater (literal ExprNumber (VNumber 1))
                                (literal ExprNumber (VNumber 2)))
        ∅ 0 no_variates = (Return (VLogical gt), no_variates).
Proof.
  destruct (number_comparisons (literal ExprNumber (VNumber 1))
              (literal ExprNumber (VNumber 2)) ∅ 0%float no_variates
              1%float no_variates 2%float no_variates eq_refl eq_refl)
    as (lt & eq & gt & Hlt & Heq & Hgt & _).
  exists lt, eq, gt. auto.
Defined.

Lemma literal_constructors_witness :
  new_literal ExprColumn (VText "red") = Return (ExprNullaryBase ExprColumn (VText "red")) /\
  (forall row i s,
     run (ExprNullaryBase ExprNumber (VNumber 1)) row i s = (Return (VNumber 1), s)).
Proof.
  split.
  - apply (proj1 (literal_constructors ExprColumn (VText "red"))).
    exists "red". split; [reflexivity | discriminate].
  - apply (proj2 (proj2 (literal_constructors ExprNumber (VNumber 1)))). discriminate.
Defined.

Lemma equal_same_class_witness :
  class_of (ExprBinary ExprAdd (column "x") ExprRowNum) =
  class_of (ExprBinary ExprAdd (column "x") ExprRowNum) /\
  Forall2 (fun x y => equal x y = true)
          (children (ExprBinary ExprAdd (column "x") ExprRowNum))
          (children (ExprBinary ExprAdd (column "x") ExprRowNum)).
Proof. apply equal_same_class. reflexivity. Defined.

Lemma toJSON_injective_witness :
  ExprUnary ExprNot (column "x") = ExprUnary ExprNot (column "x").
Proof.
  apply (toJSON_injective _ _
           (JArray [tag; JValue (VText "not");
                    JArray [tag; JValue (VText "column"); JValue (VText "x")]]));
    reflexivity.
Defined.

